(** * mongogeneric.formsets: formset views over document models

    A shallow embedding of [mongogeneric/formsets.py].  The module is
    glue between Django's class-based views and the [mongodbforms]
    formset factory, so the embedding has three parts:

    - Python values, keyword-argument dictionaries and the attributes
      of a view instance ([View]);
    - the external collaborators (formset factory, formset objects,
      query and rendering mixins), gathered in the class
      [Collaborators], every theorem being proved for all of them;
    - the methods of the mixins, written in a small state-and-exception
      monad that threads the view instance, the document store and the
      log of calls made to the collaborators. *)

From stdpp Require Import gmap strings list fin_maps.

Open Scope string_scope.
Open Scope list_scope.

(** ** Python values *)

(** Objects of the host framework and of the forms library (classes,
    formsets, query dictionaries, callables) are opaque handles [VObj];
    such objects define neither [__bool__] nor [__len__] here, so they
    are truthy.  Sized collections (query results, saved documents) are
    [VList]. *)
#[warnings="-register-all"]
Inductive value : Type :=
| VNone
| VBool (b : bool)
| VInt (z : Z)
| VStr (s : string)
| VList (l : list value)
| VObj (o : N).

(** Python's truth test, as used by [if x:]. *)
Definition truthy (x : value) : bool :=
  match x with
  | VNone => false
  | VBool b => b
  | VInt z => negb (z =? 0)%Z
  | VStr s => negb (String.eqb s "")
  | VList l => match l with [] => false | _ :: _ => true end
  | VObj _ => true
  end.

(** The truth test of an optional name ([None] or a [str]). *)
Definition truthy_name (n : option string) : bool :=
  match n with
  | None => false
  | Some s => negb (String.eqb s "")
  end.

(** A [dict] with string keys: keyword arguments and template contexts. *)
Abbreviation kwargs := (gmap string value).

(** [d.update(other)]: the entries of [other] win. *)
Definition dict_update (d other : kwargs) : kwargs := other ∪ d.

(** ** Requests, views, responses *)

(** The part of [HttpRequest] the views read.  [full_path] is the value
    of [request.get_full_path()]. *)
Record HttpRequest : Type := {
  method : string;
  POST : value;
  FILES : value;
  full_path : string
}.

Definition get_full_path (r : HttpRequest) : value := VStr (full_path r).

(** An empty [QueryDict] or [MultiValueDict]. *)
Definition empty_QueryDict : value := VList [].

(** The request the framework hands to a view.  Django parses the body
    into [request.POST] and [request.FILES] only when the method is
    POST; for every other method, PUT included, both are empty whatever
    the body holds.  [body] and [uploads] are what the body of a POST
    is parsed into. *)
Definition http_request
    (m : string) (body uploads : value) (path : string) : HttpRequest := {|
  method := m;
  POST := if bool_decide (m = "POST") then body else empty_QueryDict;
  FILES := if bool_decide (m = "POST") then uploads else empty_QueryDict;
  full_path := path
|}.

(** The four instantiable classes of the module. *)
Inductive view_class : Type :=
| BaseFormSetView
| FormSetView
| BaseDocumentFormSetView
| DocumentFormSetView.

(** [DocumentFormSetMixin] is in the method resolution order of the two
    document classes only. *)
Definition is_document_view (c : view_class) : bool :=
  match c with
  | BaseDocumentFormSetView | DocumentFormSetView => true
  | BaseFormSetView | FormSetView => false
  end.

(** The attributes of a view instance.  [object_list] has no class-level
    default in this module: [None] is the attribute not being set, and
    reading it then raises [AttributeError]. *)
Record View : Type := {
  klass : view_class;
  document : value;
  initial : value;
  form_class : value;
  formset_class : value;
  success_url : value;
  extra : value;
  max_num : value;
  can_order : value;
  can_delete : value;
  exclude : value;
  fields : value;
  formfield_callback : value;
  object_list : option value;
  request : HttpRequest
}.

(** The class-level defaults of [BaseFormSetMixin] and
    [DocumentFormSetMixin]. *)
Definition default_view (c : view_class) (r : HttpRequest) : View := {|
  klass := c;
  document := VNone;
  initial := VList [];
  form_class := VNone;
  formset_class := VNone;
  success_url := VNone;
  extra := VInt 2;
  max_num := VNone;
  can_order := VBool false;
  can_delete := VBool false;
  exclude := VNone;
  fields := VNone;
  formfield_callback := VNone;
  object_list := None;
  request := r
|}.

(** The view with [object_list] set to [x]. *)
Definition set_object_list (x : value) (v : View) : View := {|
  klass := klass v;
  document := document v;
  initial := initial v;
  form_class := form_class v;
  formset_class := formset_class v;
  success_url := success_url v;
  extra := extra v;
  max_num := max_num v;
  can_order := can_order v;
  can_delete := can_delete v;
  exclude := exclude v;
  fields := fields v;
  formfield_callback := formfield_callback v;
  object_list := Some x;
  request := request v
|}.

(** The same view serving another request. *)
Definition with_request (r : HttpRequest) (v : View) : View := {|
  klass := klass v;
  document := document v;
  initial := initial v;
  form_class := form_class v;
  formset_class := formset_class v;
  success_url := success_url v;
  extra := extra v;
  max_num := max_num v;
  can_order := can_order v;
  can_delete := can_delete v;
  exclude := exclude v;
  fields := fields v;
  formfield_callback := formfield_callback v;
  object_list := object_list v;
  request := r
|}.

Definition with_method (m : string) (r : HttpRequest) : HttpRequest := {|
  method := m;
  POST := POST r;
  FILES := FILES r;
  full_path := full_path r
|}.

(** What a handler returns: the redirect built by this module, when
    [HttpResponseRedirect] accepted its URL, or whatever
    [render_to_response] produced. *)
Inductive response : Type :=
| HttpResponseRedirect (url : value)
| Rendered (body : value).

(** ** Exceptions and outcomes *)

Inductive exn : Type :=
| AttributeError (attr : string)
| Raised (payload : value).

Inductive outcome (A : Type) : Type :=
| Ok (a : A)
| Raise (e : exn).
Arguments Ok {A} a.
Arguments Raise {A} e.

(** ** Calls to the collaborators *)

Inductive event : Type :=
| EvGetQueryset
| EvFactory (doc : value) (args : list value) (kw : kwargs)
| EvInstantiate (fcls : value) (kw : kwargs)
| EvIsValid (formset : value)
| EvSave (formset : value)
| EvRender (context : kwargs).

Definition is_save (e : event) : bool :=
  match e with EvSave _ => true | _ => false end.

(** The formsets whose [save()] was called, in order. *)
Fixpoint saved_formsets (tr : list event) : list value :=
  match tr with
  | [] => []
  | EvSave f :: tr' => f :: saved_formsets tr'
  | _ :: tr' => saved_formsets tr'
  end.

(** The code outside this module.  [Store] is the document store; only
    a formset's [save()] writes to it.

    - [get_queryset], [get_context_object_name]:
      [mongogeneric.list.MultipleDocumentsMixin];
    - [ContextMixin_get_context_data]: [mongogeneric.compat.ContextMixin];
    - [documentformset_factory]: [mongodbforms]; its result is the
      formset class, [formset_init] is calling that class;
    - [is_valid], [save]: methods of the formset object;
    - [render_to_response]: the template-response mixin of the concrete
      class (the two [Base...] classes have none of their own, a
      subclass supplies it);
    - [disallowed_redirect]: the check made by Django's
      [HttpResponseRedirect(url)], which raises [DisallowedRedirect]
      for a URL whose scheme it does not allow: the exception raised
      for [url], or [None] when the URL is accepted. *)
Class Collaborators : Type := {
  Store : Type;
  get_queryset : View → Store → outcome value;
  get_context_object_name : View → value → option string;
  ContextMixin_get_context_data : View → kwargs → kwargs;
  documentformset_factory : value → list value → kwargs → outcome value;
  formset_init : value → kwargs → outcome value;
  is_valid : value → Store → outcome bool;
  save : value → Store → outcome value * Store;
  render_to_response : View → kwargs → Store → outcome value;
  disallowed_redirect : value → option exn
}.

(** ** The monad of a request

    A method runs from a [state] (the view instance and the document
    store) and yields a [result]: what it returned or raised, the state
    it left, and the calls it made to the collaborators, in order. *)

Record state `{Collaborators} : Type := {
  self : View;
  store : Store
}.

Record result `{Collaborators} (A : Type) : Type := {
  returned : outcome A;
  final : state;
  calls : list event
}.
Arguments returned {_ A} r.
Arguments final {_ A} r.
Arguments calls {_ A} r.

Section Monad.
Context `{C : Collaborators}.

Definition M (A : Type) : Type := state → result A.

Definition ret {A} (a : A) : M A :=
  fun s => {| returned := Ok a; final := s; calls := [] |}.

Definition bind {A B} (m : M A) (k : A → M B) : M B :=
  fun s =>
    let r := m s in
    match returned r with
    | Ok a =>
        let r' := k a (final r) in
        {| returned := returned r';
           final := final r';
           calls := calls r ++ calls r' |}
    | Raise e =>
        {| returned := Raise e; final := final r; calls := calls r |}
    end.

Definition raise {A} (e : exn) : M A :=
  fun s => {| returned := Raise e; final := s; calls := [] |}.

(** A computation that touches nothing: [o] is returned or raised. *)
Definition of_outcome {A} (o : outcome A) : M A :=
  fun s => {| returned := o; final := s; calls := [] |}.

Definition get_self : M View :=
  fun s => {| returned := Ok (self s); final := s; calls := [] |}.

(** [self.object_list = x] *)
Definition assign_object_list (x : value) : M unit :=
  fun s => {| returned := Ok tt;
              final := {| self := set_object_list x (self s);
                          store := store s |};
              calls := [] |}.

(** A call that reads the store. *)
Definition ask {A} (e : event) (f : View → Store → outcome A) : M A :=
  fun s => {| returned := f (self s) (store s); final := s; calls := [e] |}.

End Monad.

Notation "'let!' x ':=' m 'in' k" := (bind m (fun x => k))
  (at level 10, x name, m at level 100, k at level 200).

(** ** The methods *)

Section Methods.
Context `{C : Collaborators}.

(** *** Calls out of the module: each is logged, then answered by the
    collaborator. *)

Definition call_get_queryset : M value :=
  ask EvGetQueryset get_queryset.

Definition call_documentformset_factory
    (doc : value) (args : list value) (kw : kwargs) : M value :=
  ask (EvFactory doc args kw) (fun _ _ => documentformset_factory doc args kw).

Definition call_formset_init (fcls : value) (kw : kwargs) : M value :=
  ask (EvInstantiate fcls kw) (fun _ _ => formset_init fcls kw).

Definition call_is_valid (formset : value) : M bool :=
  ask (EvIsValid formset) (fun _ st => is_valid formset st).

Definition call_save (formset : value) : M value :=
  fun s =>
    let (r, st) := save formset (store s) in
    {| returned := r;
       final := {| self := self s; store := st |};
       calls := [EvSave formset] |}.

Definition call_render_to_response (context : kwargs) : M response :=
  ask (EvRender context)
      (fun v st =>
         match render_to_response v context st with
         | Ok body => Ok (Rendered body)
         | Raise e => Raise e
         end).

(** *** class BaseFormSetMixin *)

Definition get_initial (v : View) : value := initial v.

Definition get_formset_class (v : View) : value := formset_class v.

Definition get_form_class (v : View) : value := form_class v.

Definition BaseFormSetMixin_get_formset_kwargs (v : View) : kwargs :=
  let kwargs : kwargs := ∅ in
  if bool_decide (method (request v) = "POST")
     || bool_decide (method (request v) = "PUT")
  then dict_update kwargs
         (<["data" := POST (request v)]>
            (<["files" := FILES (request v)]> ∅))
  else kwargs.

Definition BaseFormSetMixin_get_factory_kwargs (v : View) : kwargs :=
  let kwargs : kwargs :=
    <["extra" := extra v]>
      (<["max_num" := max_num v]>
         (<["can_order" := can_order v]>
            (<["can_delete" := can_delete v]> ∅))) in
  if truthy (get_formset_class v)
  then <["formset" := get_formset_class v]> kwargs
  else kwargs.

(** *** class DocumentFormSetMixin: the bundles *)

Definition DocumentFormSetMixin_get_formset_kwargs : M kwargs :=
  let! v := get_self in
  let kwargs := BaseFormSetMixin_get_formset_kwargs v in
  let! q := call_get_queryset in
  ret (<["queryset" := q]> kwargs).

Definition DocumentFormSetMixin_get_factory_kwargs (v : View) : kwargs :=
  let kwargs := BaseFormSetMixin_get_factory_kwargs v in
  let kwargs :=
    dict_update kwargs
      (<["exclude" := exclude v]>
         (<["fields" := fields v]>
            (<["formfield_callback" := formfield_callback v]> ∅))) in
  let kwargs :=
    if truthy (get_form_class v)
    then <["form" := get_form_class v]> kwargs else kwargs in
  let kwargs :=
    if truthy (get_formset_class v)
    then <["formset" := get_formset_class v]> kwargs else kwargs in
  kwargs.

(** [self.get_formset_kwargs()] and [self.get_factory_kwargs()], resolved
    on the class of [self]. *)
Definition get_formset_kwargs : M kwargs :=
  let! v := get_self in
  if is_document_view (klass v)
  then DocumentFormSetMixin_get_formset_kwargs
  else ret (BaseFormSetMixin_get_formset_kwargs v).

Definition get_factory_kwargs (v : View) : kwargs :=
  if is_document_view (klass v)
  then DocumentFormSetMixin_get_factory_kwargs v
  else BaseFormSetMixin_get_factory_kwargs v.

Definition BaseFormSetMixin_get_formset : M value :=
  let! v := get_self in
  call_documentformset_factory
    (document v) [get_form_class v] (get_factory_kwargs v).

Definition DocumentFormSetMixin_get_formset : M value :=
  let! v := get_self in
  call_documentformset_factory (document v) [] (get_factory_kwargs v).

Definition get_formset : M value :=
  let! v := get_self in
  if is_document_view (klass v)
  then DocumentFormSetMixin_get_formset
  else BaseFormSetMixin_get_formset.

(** [self.get_formset()(initial=self.get_initial(),
    **self.get_formset_kwargs())]: the callee is evaluated first, then
    the arguments, then the call is made. *)
Definition construct_formset : M value :=
  let! fcls := get_formset in
  let! v := get_self in
  let init := get_initial v in
  let! kw := get_formset_kwargs in
  call_formset_init fcls (<["initial" := init]> kw).

(** *** class FormSetMixin *)

Definition get_success_url (v : View) : value :=
  if truthy (success_url v)
  then success_url v
  else get_full_path (request v).

(** [HttpResponseRedirect(url)]: the response, or the exception of the
    URL check. *)
Definition new_HttpResponseRedirect (url : value) : outcome response :=
  match disallowed_redirect url with
  | None => Ok (HttpResponseRedirect url)
  | Some e => Raise e
  end.

Definition FormSetMixin_formset_valid (formset : value) : M response :=
  let! v := get_self in
  of_outcome (new_HttpResponseRedirect (get_success_url v)).

(** *** class DocumentFormSetMixin: context and success *)

(** The local [context] of [get_context_data], as handed to
    [ContextMixin.get_context_data]. *)
Definition DocumentFormSetMixin_context
    (v : View) (ol : value) (kw : kwargs) : kwargs :=
  let context : kwargs := ∅ in
  let context :=
    if truthy ol then
      let context := <["object_list" := ol]> context in
      let context_object_name := get_context_object_name v ol in
      if truthy_name context_object_name then
        match context_object_name with
        | Some name => <[name := ol]> context
        | None => context
        end
      else context
    else context in
  dict_update context kw.

Definition DocumentFormSetMixin_get_context_data (kw : kwargs) : M kwargs :=
  let! v := get_self in
  match object_list v with
  | None => raise (AttributeError "object_list")
  | Some ol =>
      ret (ContextMixin_get_context_data v
             (DocumentFormSetMixin_context v ol kw))
  end.

Definition get_context_data (kw : kwargs) : M kwargs :=
  let! v := get_self in
  if is_document_view (klass v)
  then DocumentFormSetMixin_get_context_data kw
  else ret (ContextMixin_get_context_data v kw).

Definition FormSetMixin_formset_invalid (formset : value) : M response :=
  let! context := get_context_data {["formset" := formset]} in
  call_render_to_response context.

Definition DocumentFormSetMixin_formset_valid (formset : value) : M response :=
  let! saved := call_save formset in
  let! _ := assign_object_list saved in
  FormSetMixin_formset_valid formset.

Definition formset_valid (formset : value) : M response :=
  let! v := get_self in
  if is_document_view (klass v)
  then DocumentFormSetMixin_formset_valid formset
  else FormSetMixin_formset_valid formset.

Definition formset_invalid (formset : value) : M response :=
  FormSetMixin_formset_invalid formset.

(** *** class ProcessFormSetView *)

Definition ProcessFormSetView_get : M response :=
  let! formset := construct_formset in
  let! context := get_context_data {["formset" := formset]} in
  call_render_to_response context.

Definition ProcessFormSetView_post : M response :=
  let! formset := construct_formset in
  let! ok := call_is_valid formset in
  if ok then formset_valid formset else formset_invalid formset.

(** *** class BaseDocumentFormSetView *)

Definition BaseDocumentFormSetView_get : M response :=
  let! q := call_get_queryset in
  let! _ := assign_object_list q in
  ProcessFormSetView_get.

Definition BaseDocumentFormSetView_post : M response :=
  let! q := call_get_queryset in
  let! _ := assign_object_list q in
  ProcessFormSetView_post.

(** [self.get(...)] and [self.post(...)], resolved on the class. *)
Definition get : M response :=
  let! v := get_self in
  if is_document_view (klass v)
  then BaseDocumentFormSetView_get
  else ProcessFormSetView_get.

Definition post : M response :=
  let! v := get_self in
  if is_document_view (klass v)
  then BaseDocumentFormSetView_post
  else ProcessFormSetView_post.

(** [put] is not overridden by any class of the module. *)
Definition ProcessFormSetView_put : M response := post.

Definition put : M response := ProcessFormSetView_put.

End Methods.

(** ** Vocabulary for runs *)

Section Vocabulary.
Context `{C : Collaborators}.

(** The result [r], after the calls [evs] were made. *)
Definition preceded_by {A} (evs : list event) (r : result A) : result A :=
  {| returned := returned r; final := final r; calls := evs ++ calls r |}.

(** The positional arguments of the factory call after the document. *)
Definition factory_args (v : View) : list value :=
  if is_document_view (klass v) then [] else [get_form_class v].

(** The keyword arguments of the call to the formset class; [q] is the
    queryset of a document view. *)
Definition instantiation_kwargs (v : View) (q : option value) : kwargs :=
  <["initial" := get_initial v]>
    (match q with
     | Some q => <["queryset" := q]> (BaseFormSetMixin_get_formset_kwargs v)
     | None => BaseFormSetMixin_get_formset_kwargs v
     end).

(** The four ways [construct_formset] can run from [s]. *)
Inductive constructs (s : state) : result value → Prop :=
| constructs_factory_raises e :
    documentformset_factory (document (self s)) (factory_args (self s))
      (get_factory_kwargs (self s)) = Raise e →
    constructs s
      {| returned := Raise e; final := s;
         calls := [EvFactory (document (self s)) (factory_args (self s))
                     (get_factory_kwargs (self s))] |}
| constructs_queryset_raises fcls e :
    documentformset_factory (document (self s)) (factory_args (self s))
      (get_factory_kwargs (self s)) = Ok fcls →
    is_document_view (klass (self s)) = true →
    get_queryset (self s) (store s) = Raise e →
    constructs s
      {| returned := Raise e; final := s;
         calls := [EvFactory (document (self s)) (factory_args (self s))
                     (get_factory_kwargs (self s));
                   EvGetQueryset] |}
| constructs_plain fcls :
    documentformset_factory (document (self s)) (factory_args (self s))
      (get_factory_kwargs (self s)) = Ok fcls →
    is_document_view (klass (self s)) = false →
    constructs s
      {| returned := formset_init fcls (instantiation_kwargs (self s) None);
         final := s;
         calls := [EvFactory (document (self s)) (factory_args (self s))
                     (get_factory_kwargs (self s));
                   EvInstantiate fcls (instantiation_kwargs (self s) None)] |}
| constructs_document fcls q :
    documentformset_factory (document (self s)) (factory_args (self s))
      (get_factory_kwargs (self s)) = Ok fcls →
    is_document_view (klass (self s)) = true →
    get_queryset (self s) (store s) = Ok q →
    constructs s
      {| returned := formset_init fcls (instantiation_kwargs (self s) (Some q));
         final := s;
         calls := [EvFactory (document (self s)) (factory_args (self s))
                     (get_factory_kwargs (self s));
                   EvGetQueryset;
                   EvInstantiate fcls (instantiation_kwargs (self s) (Some q))] |}.

(** The context a view builds from the caller's [kw], when it can. *)
Definition built_context (v : View) (kw : kwargs) : outcome kwargs :=
  if is_document_view (klass v) then
    match object_list v with
    | Some ol =>
        Ok (ContextMixin_get_context_data v
              (DocumentFormSetMixin_context v ol kw))
    | None => Raise (AttributeError "object_list")
    end
  else Ok (ContextMixin_get_context_data v kw).

(** The state after [self.object_list = q]. *)
Definition fetch_object_list (q : value) (s : state) : state :=
  {| self := set_object_list q (self s); store := store s |}.

(** The state in which the request-processing layer starts when the
    handler of the class is called in [s]; [None] when the query of a
    document view raised. *)
Definition processing_state (s : state) : option state :=
  if is_document_view (klass (self s)) then
    match get_queryset (self s) (store s) with
    | Ok q => Some (fetch_object_list q s)
    | Raise _ => None
    end
  else Some s.

Definition fetch_calls (v : View) : list event :=
  if is_document_view (klass v) then [EvGetQueryset] else [].

(** The view with [object_list] forgotten: its class, its configuration
    and its request. *)
Definition settings (v : View) : View := {|
  klass := klass v;
  document := document v;
  initial := initial v;
  form_class := form_class v;
  formset_class := formset_class v;
  success_url := success_url v;
  extra := extra v;
  max_num := max_num v;
  can_order := can_order v;
  can_delete := can_delete v;
  exclude := exclude v;
  fields := fields v;
  formfield_callback := formfield_callback v;
  object_list := None;
  request := request v
|}.

(** [m] changes no attribute of the view other than [object_list]. *)
Definition keeps_settings {A} (m : M A) : Prop :=
  ∀ s, settings (self (final (m s))) = settings (self s).

(** [m] leaves the store alone and saves no formset. *)
Definition reads_only {A} (m : M A) : Prop :=
  ∀ s, store (final (m s)) = store s ∧ saved_formsets (calls (m s)) = [].

(** A call to the formset class without submitted data or files. *)
Definition unbound (ikw : kwargs) : Prop :=
  ikw !! "data" = None ∧ ikw !! "files" = None.

(** The calls that build the formset: the factory call and the call to
    the formset class. *)
Definition constructing (e : event) : bool :=
  match e with
  | EvFactory _ _ _ | EvInstantiate _ _ => true
  | _ => false
  end.

(** [m] builds no formset. *)
Definition constructs_nothing {A} (m : M A) : Prop :=
  ∀ s e, e ∈ calls (m s) → constructing e = false.

(** The view serving the request that has the same attributes
    ([request.POST], [request.FILES], path) and the method POST. *)
Definition as_post (v : View) : View :=
  with_request (with_method "POST" (request v)) v.

Definition to_post (s : state) : state :=
  {| self := as_post (self s); store := store s |}.

Definition map_final {A} (f : state → state) (r : result A) : result A :=
  {| returned := returned r; final := f (final r); calls := calls r |}.

(** The view [v] serving the request [r] on the store [st]. *)
Definition serving (v : View) (r : HttpRequest) (st : Store) : state :=
  {| self := with_request r v; store := st |}.

(** The request that [v] serves is a submission. *)
Definition submitted (v : View) : Prop :=
  method (request v) = "POST" ∨ method (request v) = "PUT".

(** The collaborators that receive the view do not look at the method
    of its request. *)
Definition ignore_method : Prop :=
  (∀ v st, get_queryset (as_post v) st = get_queryset v st) ∧
  (∀ v ol, get_context_object_name (as_post v) ol =
           get_context_object_name v ol) ∧
  (∀ v kw, ContextMixin_get_context_data (as_post v) kw =
           ContextMixin_get_context_data v kw) ∧
  (∀ v context st, render_to_response (as_post v) context st =
                   render_to_response v context st).

(** [m] runs for a submission as for the POST with the same
    [request.POST] and [request.FILES]. *)
Definition natural {A} (m : M A) : Prop :=
  ∀ s, submitted (self s) → m (to_post s) = map_final to_post (m s).

(** The contexts [render_to_response] was called with, in order. *)
Fixpoint rendered_contexts (tr : list event) : list kwargs :=
  match tr with
  | [] => []
  | EvRender context :: tr' => context :: rendered_contexts tr'
  | _ :: tr' => rendered_contexts tr'
  end.

(** The formsets whose [is_valid()] was called, in order. *)
Fixpoint validated_formsets (tr : list event) : list value :=
  match tr with
  | [] => []
  | EvIsValid f :: tr' => f :: validated_formsets tr'
  | _ :: tr' => validated_formsets tr'
  end.

(** The ways [ProcessFormSetView.get] can run from [s]. *)
Inductive gets (s : state) : result response → Prop :=
| gets_construction_raises e :
    returned (construct_formset s) = Raise e →
    gets s
      {| returned := Raise e; final := s;
         calls := calls (construct_formset s) |}
| gets_context_raises formset e :
    returned (construct_formset s) = Ok formset →
    built_context (self s) {["formset" := formset]} = Raise e →
    gets s
      {| returned := Raise e; final := s;
         calls := calls (construct_formset s) |}
| gets_renders formset context :
    returned (construct_formset s) = Ok formset →
    built_context (self s) {["formset" := formset]} = Ok context →
    gets s
      {| returned := returned (call_render_to_response context s);
         final := s;
         calls := calls (construct_formset s) ++ [EvRender context] |}.

(** The ways [ProcessFormSetView.post] can run from [s]. *)
Inductive posts (s : state) : result response → Prop :=
| posts_construction_raises e :
    returned (construct_formset s) = Raise e →
    posts s
      {| returned := Raise e; final := s;
         calls := calls (construct_formset s) |}
| posts_validation_raises formset e :
    returned (construct_formset s) = Ok formset →
    is_valid formset (store s) = Raise e →
    posts s
      {| returned := Raise e; final := s;
         calls := calls (construct_formset s) ++ [EvIsValid formset] |}
| posts_redirects formset :
    returned (construct_formset s) = Ok formset →
    is_valid formset (store s) = Ok true →
    is_document_view (klass (self s)) = false →
    posts s
      {| returned := new_HttpResponseRedirect (get_success_url (self s));
         final := s;
         calls := calls (construct_formset s) ++ [EvIsValid formset] |}
| posts_saves formset saved st' :
    returned (construct_formset s) = Ok formset →
    is_valid formset (store s) = Ok true →
    is_document_view (klass (self s)) = true →
    save formset (store s) = (Ok saved, st') →
    posts s
      {| returned := new_HttpResponseRedirect (get_success_url (self s));
         final := {| self := set_object_list saved (self s); store := st' |};
         calls := calls (construct_formset s) ++
                  [EvIsValid formset; EvSave formset] |}
| posts_save_raises formset e st' :
    returned (construct_formset s) = Ok formset →
    is_valid formset (store s) = Ok true →
    is_document_view (klass (self s)) = true →
    save formset (store s) = (Raise e, st') →
    posts s
      {| returned := Raise e;
         final := {| self := self s; store := st' |};
         calls := calls (construct_formset s) ++
                  [EvIsValid formset; EvSave formset] |}
| posts_context_raises formset e :
    returned (construct_formset s) = Ok formset →
    is_valid formset (store s) = Ok false →
    built_context (self s) {["formset" := formset]} = Raise e →
    posts s
      {| returned := Raise e; final := s;
         calls := calls (construct_formset s) ++ [EvIsValid formset] |}
| posts_renders formset context :
    returned (construct_formset s) = Ok formset →
    is_valid formset (store s) = Ok false →
    built_context (self s) {["formset" := formset]} = Ok context →
    posts s
      {| returned := returned (call_render_to_response context s);
         final := s;
         calls := calls (construct_formset s) ++
                  [EvIsValid formset; EvRender context] |}.

End Vocabulary.

(** ** A concrete set of collaborators

    A small forms library used to run the methods on concrete requests.
    The store is the list of saved documents.  A formset is the list
    [[VStr "formset"; class; data]]; it is valid when it was given
    non-empty data, and saving it appends its rows to the store. *)

Module Demo.

(** The check of [HttpResponseRedirect]: a URL with a scheme other than
    http, https or ftp is refused.  The scheme is the text before the
    first colon, when that text is made of scheme characters. *)
Definition is_scheme_char (c : Ascii.ascii) : bool :=
  let n := Ascii.nat_of_ascii c in
  (Nat.leb 97 n && Nat.leb n 122) || (Nat.leb 65 n && Nat.leb n 90) ||
  (Nat.leb 48 n && Nat.leb n 57) ||
  Nat.eqb n 43 || Nat.eqb n 45 || Nat.eqb n 46.

Fixpoint scheme_of (u : string) : option string :=
  match u with
  | EmptyString => None
  | String c rest =>
      if Nat.eqb (Ascii.nat_of_ascii c) 58 then Some ""
      else if is_scheme_char c then
        match scheme_of rest with
        | Some sch => Some (String c sch)
        | None => None
        end
      else None
  end.

Definition refused (url : value) : option exn :=
  match url with
  | VStr u =>
      match scheme_of u with
      | Some sch =>
          if String.eqb sch "" || String.eqb sch "http"
             || String.eqb sch "https" || String.eqb sch "ftp"
          then None
          else Some (Raised (VStr "DisallowedRedirect"))
      | None => None
      end
  | _ => None
  end.

Definition formset_data (formset : value) : value :=
  match formset with
  | VList [_; _; d] => d
  | _ => VNone
  end.

Definition rows (formset : value) : list value :=
  match formset_data formset with
  | VList l => l
  | _ => []
  end.

#[export] Instance collaborators : Collaborators := {|
  Store := list value;
  get_queryset := fun _ st => Ok (VList st);
  get_context_object_name := fun v _ =>
    match document v with
    | VStr d => Some (d +:+ "_list")
    | _ => None
    end;
  ContextMixin_get_context_data := fun _ kw => kw;
  documentformset_factory := fun doc args _ =>
    Ok (VList (VStr "FormSet" :: doc :: args));
  formset_init := fun fcls kw =>
    Ok (VList [VStr "formset"; fcls; default VNone (kw !! "data")]);
  is_valid := fun formset _ => Ok (truthy (formset_data formset));
  save := fun formset st => (Ok (VList (rows formset)), st ++ rows formset);
  render_to_response := fun _ context _ =>
    Ok (VList [VStr "page"; default VNone (context !! "formset")]);
  disallowed_redirect := refused
|}.

Definition get_request : HttpRequest :=
  {| method := "GET"; POST := VObj 0; FILES := VObj 1; full_path := "/books/?page=2" |}.

Definition post_request (data : value) : HttpRequest :=
  {| method := "POST"; POST := data; FILES := VList []; full_path := "/books/" |}.

Definition book (title : string) : value := VList [VStr "Book"; VStr title].

Definition start (v : View) (st : list value) : state :=
  {| self := v; store := st |}.

(** A document view of books that redirects to [url]. *)
Definition books_view_to (url : value) (r : HttpRequest) : View := {|
  klass := DocumentFormSetView;
  document := VStr "book";
  initial := VList [];
  form_class := VNone;
  formset_class := VNone;
  success_url := url;
  extra := VInt 2;
  max_num := VNone;
  can_order := VBool false;
  can_delete := VBool false;
  exclude := VNone;
  fields := VNone;
  formfield_callback := VNone;
  object_list := None;
  request := r
|}.

Definition books_view : HttpRequest → View := books_view_to VNone.

(** The store holds one book. *)
Definition shelf : list value := [book "Emma"].

(** A GET of the page. *)
Definition page_request : state := start (books_view get_request) shelf.

(** A POST of one new book, and a POST of no row at all. *)
Definition valid_submission : state :=
  start (books_view (post_request (VList [book "Dune"]))) shelf.

Definition invalid_submission : state :=
  start (books_view (post_request (VList []))) shelf.

(** A view whose document gives no context name, holding a candidate
    list of one book. *)
Definition nameless_view : View :=
  set_object_list (VList shelf) (default_view DocumentFormSetView get_request).

(** The formsets built for the two submissions. *)
Definition formset_of (data : value) : value :=
  VList [VStr "formset"; VList [VStr "FormSet"; VStr "book"]; data].

(** The request of the valid submission and the PUT request with the
    same body, as the framework hands them to the view. *)
Definition posted_book : HttpRequest :=
  http_request "POST" (VList [book "Dune"]) (VList []) "/books/".

Definition put_book : HttpRequest :=
  http_request "PUT" (VList [book "Dune"]) (VList []) "/books/".

Definition put_submission : state := start (books_view put_book) shelf.

(** The valid submission, to a view whose success URL is refused by
    [HttpResponseRedirect]. *)
Definition unsafe_submission : state :=
  start (books_view_to (VStr "javascript:alert(1)")
           (post_request (VList [book "Dune"]))) shelf.

(** A plain formset view, and two submissions to it. *)
Definition plain_view (r : HttpRequest) : View :=
  default_view FormSetView r.

Definition plain_valid_submission : state :=
  start (plain_view (post_request (VList [book "Dune"]))) shelf.

Definition plain_page_request : state := start (plain_view get_request) shelf.

(** The formset a plain view builds from [data]. *)
Definition plain_formset_of (data : value) : value :=
  VList [VStr "formset"; VList [VStr "FormSet"; VNone; VNone]; data].

(** Collaborators whose formsets validate but cannot be saved, and
    collaborators whose validation itself fails. *)
Definition unsaveable : Collaborators := {|
  Store := list value;
  get_queryset := fun _ st => Ok (VList st);
  get_context_object_name := fun _ _ => None;
  ContextMixin_get_context_data := fun _ kw => kw;
  documentformset_factory := fun doc args _ =>
    Ok (VList (VStr "FormSet" :: doc :: args));
  formset_init := fun fcls kw =>
    Ok (VList [VStr "formset"; fcls; default VNone (kw !! "data")]);
  is_valid := fun _ _ => Ok true;
  save := fun _ st => (Raise (Raised (VStr "connection lost")), st);
  render_to_response := fun _ _ _ => Ok (VStr "page");
  disallowed_redirect := refused
|}.

Definition unvalidatable : Collaborators := {|
  Store := list value;
  get_queryset := fun _ st => Ok (VList st);
  get_context_object_name := fun _ _ => None;
  ContextMixin_get_context_data := fun _ kw => kw;
  documentformset_factory := fun doc args _ =>
    Ok (VList (VStr "FormSet" :: doc :: args));
  formset_init := fun fcls kw =>
    Ok (VList [VStr "formset"; fcls; default VNone (kw !! "data")]);
  is_valid := fun _ _ => Raise (Raised (VStr "management form missing"));
  save := fun _ st => (Ok (VList []), st);
  render_to_response := fun _ _ _ => Ok (VStr "page");
  disallowed_redirect := refused
|}.

(** Collaborators whose factory rejects every document. *)
Definition factoryless : Collaborators := {|
  Store := list value;
  get_queryset := fun _ st => Ok (VList st);
  get_context_object_name := fun _ _ => None;
  ContextMixin_get_context_data := fun _ kw => kw;
  documentformset_factory := fun _ _ _ =>
    Raise (Raised (VStr "not a document"));
  formset_init := fun fcls kw => Ok (VList [VStr "formset"; fcls]);
  is_valid := fun _ _ => Ok true;
  save := fun _ st => (Ok (VList []), st);
  render_to_response := fun _ _ _ => Ok (VStr "page");
  disallowed_redirect := refused
|}.

Definition unsaveable_submission : @state unsaveable :=
  @Build_state unsaveable
    (books_view (post_request (VList [book "Dune"]))) shelf.

Definition unvalidatable_submission : @state unvalidatable :=
  @Build_state unvalidatable
    (books_view (post_request (VList [book "Dune"]))) shelf.

Definition factoryless_request : @state factoryless :=
  @Build_state factoryless (books_view get_request) shelf.

(** The context the books view renders its page with. *)
Definition page_context : kwargs :=
  DocumentFormSetMixin_context
    (set_object_list (VList shelf) (books_view get_request))
    (VList shelf) {["formset" := formset_of VNone]}.

End Demo.

(** ** Dictionaries *)

Section Dictionaries.

Lemma dict_update_lookup_other (d other : kwargs) k x :
  other !! k = Some x → dict_update d other !! k = Some x.
Proof. intros H. unfold dict_update. by apply lookup_union_Some_l. Qed.

Lemma dict_update_empty (other : kwargs) : dict_update ∅ other = other.
Proof. unfold dict_update. apply (right_id_L ∅ (∪)). Qed.

Lemma dict_update_lookup (d other : kwargs) k :
  dict_update d other !! k =
  match other !! k with Some x => Some x | None => d !! k end.
Proof.
  unfold dict_update. rewrite lookup_union.
  by destruct (other !! k), (d !! k).
Qed.

End Dictionaries.

(** ** Runs of the methods *)

Section Runs.
Context `{C : Collaborators}.

Lemma saved_formsets_app (a b : list event) :
  saved_formsets (a ++ b) = saved_formsets a ++ saved_formsets b.
Proof.
  induction a as [|e a IH]; [done|].
  destruct e; simpl; by rewrite ?IH.
Qed.

Lemma bind_Ok {A B} (m : M A) (k : A → M B) s a :
  returned (m s) = Ok a →
  bind m k s = preceded_by (calls (m s)) (k a (final (m s))).
Proof. intros H. unfold bind, preceded_by. by rewrite H. Qed.

Lemma preceded_by_nil {A} (r : result A) : preceded_by [] r = r.
Proof. by destruct r. Qed.

Lemma bind_get_self {B} (k : View → M B) s : bind get_self k s = k (self s) s.
Proof. unfold bind, get_self; simpl. by destruct (k (self s) s). Qed.

Lemma get_formset_run s :
  get_formset s =
  call_documentformset_factory
    (document (self s)) (factory_args (self s)) (get_factory_kwargs (self s)) s.
Proof.
  unfold get_formset, factory_args. rewrite bind_get_self.
  destruct (is_document_view (klass (self s)));
    [unfold DocumentFormSetMixin_get_formset
    |unfold BaseFormSetMixin_get_formset];
    by rewrite bind_get_self.
Qed.

Lemma get_formset_kwargs_run s :
  get_formset_kwargs s =
  if is_document_view (klass (self s))
  then bind call_get_queryset
         (fun q => ret (<["queryset" := q]>
                          (BaseFormSetMixin_get_formset_kwargs (self s)))) s
  else ret (BaseFormSetMixin_get_formset_kwargs (self s)) s.
Proof.
  unfold get_formset_kwargs. rewrite bind_get_self.
  destruct (is_document_view (klass (self s))); [|done].
  unfold DocumentFormSetMixin_get_formset_kwargs. by rewrite bind_get_self.
Qed.

Lemma construct_formset_constructs s : constructs s (construct_formset s).
Proof.
  unfold construct_formset, bind at 1. rewrite get_formset_run.
  unfold call_documentformset_factory at 1 2 3, ask at 1 2 3; simpl.
  destruct (documentformset_factory _ _ _) as [fcls|e] eqn:Hf;
    [|by apply constructs_factory_raises].
  unfold bind. rewrite get_formset_kwargs_run.
  destruct (is_document_view (klass (self s))) eqn:Hd.
  - unfold bind, call_get_queryset, ask; simpl.
    destruct (get_queryset (self s) (store s)) as [q|e] eqn:Hq; simpl.
    + by apply (constructs_document s fcls q).
    + by apply (constructs_queryset_raises s fcls e).
  - simpl. by apply (constructs_plain s fcls).
Qed.

(** *** The two bundles *)

Lemma formset_kwargs_submitted v :
  method (request v) = "POST" ∨ method (request v) = "PUT" →
  BaseFormSetMixin_get_formset_kwargs v =
  <["data" := POST (request v)]> (<["files" := FILES (request v)]> ∅).
Proof.
  intros H. unfold BaseFormSetMixin_get_formset_kwargs.
  rewrite dict_update_empty.
  destruct H as [-> | ->]; reflexivity.
Qed.

Lemma formset_kwargs_unsubmitted v :
  method (request v) ≠ "POST" → method (request v) ≠ "PUT" →
  BaseFormSetMixin_get_formset_kwargs v = ∅.
Proof.
  intros H1 H2. unfold BaseFormSetMixin_get_formset_kwargs.
  by rewrite !bool_decide_eq_false_2.
Qed.

Lemma factory_kwargs_base v :
  let kw := BaseFormSetMixin_get_factory_kwargs v in
  kw !! "extra" = Some (extra v) ∧ kw !! "max_num" = Some (max_num v) ∧
  kw !! "can_order" = Some (can_order v) ∧
  kw !! "can_delete" = Some (can_delete v).
Proof.
  unfold BaseFormSetMixin_get_factory_kwargs.
  destruct (truthy (get_formset_class v)); simpl; by repeat split.
Qed.

Lemma factory_kwargs_document v :
  let kw := DocumentFormSetMixin_get_factory_kwargs v in
  kw !! "extra" = Some (extra v) ∧ kw !! "max_num" = Some (max_num v) ∧
  kw !! "can_order" = Some (can_order v) ∧
  kw !! "can_delete" = Some (can_delete v) ∧
  kw !! "exclude" = Some (exclude v) ∧ kw !! "fields" = Some (fields v) ∧
  kw !! "formfield_callback" = Some (formfield_callback v).
Proof.
  unfold DocumentFormSetMixin_get_factory_kwargs,
    BaseFormSetMixin_get_factory_kwargs, dict_update.
  destruct (truthy (get_formset_class v)), (truthy (get_form_class v));
    simpl; by repeat split.
Qed.

(** *** construct_formset reads, and never writes *)

Lemma construct_formset_final s : final (construct_formset s) = s.
Proof. by destruct (construct_formset_constructs s). Qed.

Lemma construct_formset_saves_nothing s :
  saved_formsets (calls (construct_formset s)) = [].
Proof. by destruct (construct_formset_constructs s). Qed.

(** *** Context construction *)

Lemma context_keeps_caller_entries v ol (kw : kwargs) k x :
  kw !! k = Some x → DocumentFormSetMixin_context v ol kw !! k = Some x.
Proof. intros H. by apply dict_update_lookup_other. Qed.

Lemma get_context_data_quiet kw s :
  final (get_context_data kw s) = s ∧ calls (get_context_data kw s) = [].
Proof.
  unfold get_context_data. rewrite bind_get_self.
  destruct (is_document_view (klass (self s))); [|done].
  unfold DocumentFormSetMixin_get_context_data. rewrite bind_get_self.
  by destruct (object_list (self s)).
Qed.

Lemma get_context_data_returned kw s :
  returned (get_context_data kw s) = built_context (self s) kw.
Proof.
  unfold get_context_data, built_context. rewrite bind_get_self.
  destruct (is_document_view (klass (self s))); [|done].
  unfold DocumentFormSetMixin_get_context_data. rewrite bind_get_self.
  by destruct (object_list (self s)).
Qed.

Lemma formset_invalid_renders formset s context :
  built_context (self s) {["formset" := formset]} = Ok context →
  formset_invalid formset s = call_render_to_response context s.
Proof.
  intros H. unfold formset_invalid, FormSetMixin_formset_invalid.
  rewrite (bind_Ok _ _ s context) by by rewrite get_context_data_returned.
  destruct (get_context_data_quiet {["formset" := formset]} s) as [-> ->].
  apply preceded_by_nil.
Qed.

(** *** Routing in ProcessFormSetView *)

Lemma ProcessFormSetView_post_routes s formset (ok : bool) :
  returned (construct_formset s) = Ok formset →
  is_valid formset (store s) = Ok ok →
  ProcessFormSetView_post s =
  preceded_by (calls (construct_formset s) ++ [EvIsValid formset])
    ((if ok then formset_valid formset else formset_invalid formset) s).
Proof.
  intros Hc Hv. unfold ProcessFormSetView_post.
  rewrite (bind_Ok _ _ s formset Hc), construct_formset_final.
  rewrite (bind_Ok _ _ s ok) by done.
  unfold preceded_by; simpl. by rewrite <- app_assoc.
Qed.

(** *** The document base view fetches first *)

Lemma fetch_then {A} (k : M A) s :
  (let! q := call_get_queryset in
   let! _ := assign_object_list q in
   k) s =
  match get_queryset (self s) (store s) with
  | Ok q => preceded_by [EvGetQueryset] (k (fetch_object_list q s))
  | Raise e => {| returned := Raise e; final := s; calls := [EvGetQueryset] |}
  end.
Proof.
  unfold bind at 1, call_get_queryset, ask; simpl.
  by destruct (get_queryset (self s) (store s)) as [q|e].
Qed.

Lemma post_processing s s0 :
  processing_state s = Some s0 →
  post s = preceded_by (fetch_calls (self s)) (ProcessFormSetView_post s0).
Proof.
  unfold processing_state, post, fetch_calls. rewrite bind_get_self.
  destruct (is_document_view (klass (self s))).
  - unfold BaseDocumentFormSetView_post. rewrite fetch_then.
    destruct (get_queryset (self s) (store s)); [|done]. by intros [= <-].
  - intros [= <-]. by rewrite preceded_by_nil.
Qed.

Lemma get_processing s s0 :
  processing_state s = Some s0 →
  get s = preceded_by (fetch_calls (self s)) (ProcessFormSetView_get s0).
Proof.
  unfold processing_state, get, fetch_calls. rewrite bind_get_self.
  destruct (is_document_view (klass (self s))).
  - unfold BaseDocumentFormSetView_get. rewrite fetch_then.
    destruct (get_queryset (self s) (store s)); [|done]. by intros [= <-].
  - intros [= <-]. by rewrite preceded_by_nil.
Qed.

Lemma processing_state_facts s s0 :
  processing_state s = Some s0 →
  store s0 = store s ∧ klass (self s0) = klass (self s) ∧
  request (self s0) = request (self s) ∧
  success_url (self s0) = success_url (self s) ∧
  (is_document_view (klass (self s)) = true → is_Some (object_list (self s0))).
Proof.
  unfold processing_state.
  destruct (is_document_view (klass (self s))).
  - destruct (get_queryset (self s) (store s)); [|done].
    intros [= <-]. simpl. eauto 10.
  - intros [= <-]. by repeat split.
Qed.

(** *** Bound and unbound formsets *)

Lemma instantiation_kwargs_lookup v q :
  let ikw := instantiation_kwargs v q in
  ikw !! "initial" = Some (initial v) ∧
  ikw !! "data" = BaseFormSetMixin_get_formset_kwargs v !! "data" ∧
  ikw !! "files" = BaseFormSetMixin_get_formset_kwargs v !! "files".
Proof.
  unfold instantiation_kwargs, get_initial; simpl.
  rewrite lookup_insert_eq.
  destruct q; by rewrite !lookup_insert_ne.
Qed.

Lemma formset_kwargs_lookup_submitted v :
  method (request v) = "POST" ∨ method (request v) = "PUT" →
  BaseFormSetMixin_get_formset_kwargs v !! "data" = Some (POST (request v)) ∧
  BaseFormSetMixin_get_formset_kwargs v !! "files" = Some (FILES (request v)).
Proof. intros H. by rewrite (formset_kwargs_submitted v H). Qed.

Lemma construct_formset_Ok s formset :
  returned (construct_formset s) = Ok formset →
  ∃ fcls q,
    documentformset_factory (document (self s)) (factory_args (self s))
      (get_factory_kwargs (self s)) = Ok fcls ∧
    formset_init fcls (instantiation_kwargs (self s) q) = Ok formset ∧
    EvFactory (document (self s)) (factory_args (self s))
      (get_factory_kwargs (self s)) ∈ calls (construct_formset s) ∧
    EvInstantiate fcls (instantiation_kwargs (self s) q)
      ∈ calls (construct_formset s).
Proof.
  destruct (construct_formset_constructs s) as [e|fcls e|fcls|fcls q];
    simpl; intros Hr; try discriminate.
  - exists fcls, None. repeat split; try done; set_solver.
  - exists fcls, (Some q). repeat split; try done; set_solver.
Qed.

Lemma construct_formset_Ok_calls s formset :
  returned (construct_formset s) = Ok formset →
  ∃ fcls q between,
    documentformset_factory (document (self s)) (factory_args (self s))
      (get_factory_kwargs (self s)) = Ok fcls ∧
    formset_init fcls (instantiation_kwargs (self s) q) = Ok formset ∧
    calls (construct_formset s) =
      EvFactory (document (self s)) (factory_args (self s))
        (get_factory_kwargs (self s)) ::
      between ++ [EvInstantiate fcls (instantiation_kwargs (self s) q)].
Proof.
  destruct (construct_formset_constructs s) as [e|fcls e|fcls|fcls q];
    simpl; intros Hr; try discriminate.
  - by exists fcls, None, [].
  - by exists fcls, (Some q), [EvGetQueryset].
Qed.

Lemma built_context_keeps v (kw : kwargs) :
  (is_document_view (klass v) = true → is_Some (object_list v)) →
  ∃ passed,
    built_context v kw = Ok (ContextMixin_get_context_data v passed) ∧
    ∀ k x, kw !! k = Some x → passed !! k = Some x.
Proof.
  intros Hol. unfold built_context.
  destruct (is_document_view (klass v)).
  - destruct (Hol eq_refl) as [ol ->].
    eexists; split; [done|]. apply context_keeps_caller_entries.
  - by exists kw.
Qed.

Lemma construct_formset_calls s e :
  e ∈ calls (construct_formset s) →
  e = EvFactory (document (self s)) (factory_args (self s))
        (get_factory_kwargs (self s)) ∨
  e = EvGetQueryset ∨
  ∃ fcls q, e = EvInstantiate fcls (instantiation_kwargs (self s) q).
Proof.
  destruct (construct_formset_constructs s) as [?|fcls ?|fcls|fcls q];
    simpl; intros He;
    repeat (apply elem_of_cons in He as [->|He]); try set_solver; eauto.
Qed.

(** *** Frames *)

Lemma keeps_settings_bind {A B} (m : M A) (k : A → M B) :
  keeps_settings m → (∀ a, keeps_settings (k a)) → keeps_settings (bind m k).
Proof.
  intros Hm Hk s. unfold bind.
  destruct (returned (m s)); simpl; [|apply Hm].
  by rewrite Hk, Hm.
Qed.

Lemma keeps_settings_ask {A} e (f : View → Store → outcome A) :
  keeps_settings (ask e f).
Proof. done. Qed.

Lemma keeps_settings_call_save formset : keeps_settings (call_save formset).
Proof. intros s. unfold call_save. by destruct (save formset (store s)). Qed.

Lemma reads_only_bind {A B} (m : M A) (k : A → M B) :
  reads_only m → (∀ a, reads_only (k a)) → reads_only (bind m k).
Proof.
  intros Hm Hk s. unfold bind.
  destruct (returned (m s)) as [a|e]; simpl; [|apply Hm].
  destruct (Hm s) as [Hs Hc], (Hk a (final (m s))) as [Hs' Hc'].
  by rewrite saved_formsets_app, Hc, Hc', Hs', Hs.
Qed.

Lemma reads_only_ask {A} e (f : View → Store → outcome A) :
  is_save e = false → reads_only (ask e f).
Proof. intros He s. by destruct e. Qed.

Create HintDb frame discriminated.

#[local] Hint Resolve keeps_settings_ask keeps_settings_call_save : frame.
#[local] Hint Resolve reads_only_ask : frame.
#[local] Hint Extern 1 (keeps_settings (bind _ _)) =>
  apply keeps_settings_bind; [|intros ?] : frame.
#[local] Hint Extern 1 (reads_only (bind _ _)) =>
  apply reads_only_bind; [|intros ?] : frame.
#[local] Hint Extern 1 (keeps_settings (if ?b then _ else _)) =>
  destruct b : frame.
#[local] Hint Extern 1 (reads_only (if ?b then _ else _)) =>
  destruct b : frame.
#[local] Hint Extern 1 (keeps_settings (match ?o with Some _ => _ | None => _ end)) =>
  destruct o : frame.
#[local] Hint Extern 1 (reads_only (match ?o with Some _ => _ | None => _ end)) =>
  destruct o : frame.
#[local] Hint Extern 2 (keeps_settings _) => by intros ? : frame.
#[local] Hint Extern 2 (reads_only _) => by intros ? : frame.
#[local] Hint Unfold
  call_get_queryset call_documentformset_factory call_formset_init
  call_is_valid call_render_to_response
  get_formset_kwargs DocumentFormSetMixin_get_formset_kwargs
  get_formset BaseFormSetMixin_get_formset DocumentFormSetMixin_get_formset
  construct_formset get_context_data DocumentFormSetMixin_get_context_data
  formset_valid FormSetMixin_formset_valid DocumentFormSetMixin_formset_valid
  formset_invalid FormSetMixin_formset_invalid
  ProcessFormSetView_get ProcessFormSetView_post
  BaseDocumentFormSetView_get BaseDocumentFormSetView_post
  get post ProcessFormSetView_put put : frame.

Lemma post_keeps_settings : keeps_settings post.
Proof. autounfold with frame. auto 30 with frame. Qed.

Lemma get_keeps_settings : keeps_settings get.
Proof. autounfold with frame. auto 30 with frame. Qed.

Lemma get_reads_only : reads_only get.
Proof. autounfold with frame. auto 30 with frame. Qed.

(** *** Where formsets are built *)

Lemma constructs_nothing_bind {A B} (m : M A) (k : A → M B) :
  constructs_nothing m → (∀ a, constructs_nothing (k a)) →
  constructs_nothing (bind m k).
Proof.
  intros Hm Hk s e. unfold bind.
  destruct (returned (m s)) as [a|?]; simpl; [|apply Hm].
  rewrite elem_of_app. intros [?|?]; [by eapply Hm | by eapply Hk].
Qed.

Lemma constructs_nothing_ask {A} e (f : View → Store → outcome A) :
  constructing e = false → constructs_nothing (ask e f).
Proof. intros He s e'. simpl. by intros ->%list_elem_of_singleton. Qed.

Lemma constructs_nothing_quiet {A} (m : M A) :
  (∀ s, calls (m s) = []) → constructs_nothing m.
Proof. intros H s e. rewrite H. by intros ?%elem_of_nil. Qed.

Lemma after_construct_formset {A} (k : value → M A) s e :
  (∀ formset, constructs_nothing (k formset)) →
  e ∈ calls (bind construct_formset k s) → constructing e = true →
  e ∈ calls (construct_formset s).
Proof.
  intros Hk. unfold bind.
  destruct (returned (construct_formset s)) as [formset|?]; simpl; [|done].
  rewrite elem_of_app. intros [?|He] Hc; [done|].
  apply Hk in He. congruence.
Qed.

Lemma get_context_data_constructs_nothing kw :
  constructs_nothing (get_context_data kw).
Proof.
  apply constructs_nothing_quiet. intros s. apply get_context_data_quiet.
Qed.

Lemma formset_valid_constructs_nothing formset :
  constructs_nothing (formset_valid formset).
Proof.
  intros s e. unfold formset_valid. rewrite bind_get_self.
  destruct (is_document_view (klass (self s))).
  - unfold DocumentFormSetMixin_formset_valid, bind at 1, call_save.
    destruct (save formset (store s)) as [[saved|?] st]; simpl;
      by intros ->%list_elem_of_singleton.
  - unfold FormSetMixin_formset_valid. rewrite bind_get_self. simpl.
    by intros ?%elem_of_nil.
Qed.

Lemma formset_invalid_constructs_nothing formset :
  constructs_nothing (formset_invalid formset).
Proof.
  apply constructs_nothing_bind;
    [apply get_context_data_constructs_nothing|].
  intros context. by apply constructs_nothing_ask.
Qed.

Lemma ProcessFormSetView_get_construction s e :
  e ∈ calls (ProcessFormSetView_get s) → constructing e = true →
  e ∈ calls (construct_formset s).
Proof.
  apply after_construct_formset. intros formset.
  apply constructs_nothing_bind;
    [apply get_context_data_constructs_nothing|].
  intros context. by apply constructs_nothing_ask.
Qed.

Lemma ProcessFormSetView_post_construction s e :
  e ∈ calls (ProcessFormSetView_post s) → constructing e = true →
  e ∈ calls (construct_formset s).
Proof.
  apply after_construct_formset. intros formset.
  apply constructs_nothing_bind; [by apply constructs_nothing_ask|].
  intros [|];
    [apply formset_valid_constructs_nothing
    |apply formset_invalid_constructs_nothing].
Qed.

Lemma fetched_construction {A} (k : M A) s e :
  (∀ s0, e ∈ calls (k s0) → e ∈ calls (construct_formset s0)) →
  e ∈ calls
        ((if is_document_view (klass (self s))
          then let! q := call_get_queryset in
               let! _ := assign_object_list q in k
          else k) s) →
  constructing e = true →
  ∃ s0, processing_state s = Some s0 ∧ e ∈ calls (construct_formset s0).
Proof.
  intros Hk. unfold processing_state.
  destruct (is_document_view (klass (self s))).
  - rewrite fetch_then.
    destruct (get_queryset (self s) (store s)) as [q|?]; simpl.
    + intros [->|He]%elem_of_cons; [done|]. eauto.
    + by intros ->%list_elem_of_singleton.
  - eauto.
Qed.

Lemma get_construction s e :
  e ∈ calls (get s) → constructing e = true →
  ∃ s0, processing_state s = Some s0 ∧ e ∈ calls (construct_formset s0).
Proof.
  unfold get. rewrite bind_get_self. intros He Hc.
  apply (fetched_construction ProcessFormSetView_get); [|done..].
  intros s0 ?. by apply ProcessFormSetView_get_construction.
Qed.

Lemma post_construction s e :
  e ∈ calls (post s) → constructing e = true →
  ∃ s0, processing_state s = Some s0 ∧ e ∈ calls (construct_formset s0).
Proof.
  unfold post. rewrite bind_get_self. intros He Hc.
  apply (fetched_construction ProcessFormSetView_post); [|done..].
  intros s0 ?. by apply ProcessFormSetView_post_construction.
Qed.

Lemma processing_state_settings s s0 :
  processing_state s = Some s0 → settings (self s0) = settings (self s).
Proof.
  unfold processing_state.
  destruct (is_document_view (klass (self s)));
    [destruct (get_queryset (self s) (store s))|]; by intros [= <-].
Qed.

Lemma factory_call_of_settings v v' :
  settings v' = settings v →
  document v' = document v ∧ factory_args v' = factory_args v ∧
  get_factory_kwargs v' = get_factory_kwargs v ∧
  ∀ q, instantiation_kwargs v' q = instantiation_kwargs v q.
Proof.
  intros H.
  change (document (settings v') = document (settings v) ∧
          factory_args (settings v') = factory_args (settings v) ∧
          get_factory_kwargs (settings v') = get_factory_kwargs (settings v) ∧
          ∀ q, instantiation_kwargs (settings v') q =
               instantiation_kwargs (settings v) q).
  by rewrite H.
Qed.

(** *** PUT and POST requests with the same [request.POST] and [request.FILES] *)

Lemma as_post_instantiation v q :
  submitted v → instantiation_kwargs (as_post v) q = instantiation_kwargs v q.
Proof.
  intros Hs. unfold instantiation_kwargs.
  rewrite (formset_kwargs_submitted v Hs).
  by rewrite (formset_kwargs_submitted (as_post v)) by by left.
Qed.

Lemma constructs_functional s r r' : constructs s r → constructs s r' → r = r'.
Proof. intros H H'. destruct H, H'; congruence. Qed.

Lemma constructs_to_post s r :
  ignore_method → submitted (self s) →
  constructs s r → constructs (to_post s) (map_final to_post r).
Proof.
  intros (Hq & _) Hs Hr.
  destruct Hr as [e Hf|fcls e Hf Hd Hg|fcls Hf Hd|fcls q Hf Hd Hg];
    unfold map_final; cbn [returned final calls].
  - by apply (constructs_factory_raises (to_post s)).
  - apply (constructs_queryset_raises (to_post s) fcls); [done..|].
    rewrite <- Hg. apply Hq.
  - rewrite <- (as_post_instantiation (self s) None Hs).
    by apply (constructs_plain (to_post s) fcls).
  - rewrite <- (as_post_instantiation (self s) (Some q) Hs).
    apply (constructs_document (to_post s) fcls q); [done..|].
    rewrite <- Hg. apply Hq.
Qed.

Lemma natural_construct_formset : ignore_method → natural construct_formset.
Proof.
  intros Hi s Hs. apply (constructs_functional (to_post s)).
  - apply construct_formset_constructs.
  - apply constructs_to_post, construct_formset_constructs; done.
Qed.

Lemma result_eq {A} (r r' : result A) :
  returned r = returned r' → final r = final r' → calls r = calls r' →
  r = r'.
Proof. destruct r, r'; simpl. by intros -> -> ->. Qed.

Lemma built_context_as_post v kw :
  ignore_method → built_context (as_post v) kw = built_context v kw.
Proof.
  intros (_ & Hn & Hc & _). unfold built_context.
  change (klass (as_post v)) with (klass v).
  change (object_list (as_post v)) with (object_list v).
  destruct (is_document_view (klass v)); [|by rewrite Hc].
  destruct (object_list v) as [ol|]; [|done].
  rewrite Hc. unfold DocumentFormSetMixin_context. by rewrite Hn.
Qed.

Lemma natural_get_context_data kw : ignore_method → natural (get_context_data kw).
Proof.
  intros Hi s _. apply result_eq; unfold map_final; cbn [returned final calls].
  - rewrite !get_context_data_returned. by apply built_context_as_post.
  - by rewrite !(proj1 (get_context_data_quiet _ _)).
  - by rewrite !(proj2 (get_context_data_quiet _ _)).
Qed.

Lemma natural_call_render_to_response context :
  ignore_method → natural (call_render_to_response context).
Proof.
  intros (_ & _ & _ & Hr) s _.
  unfold call_render_to_response, ask, map_final; simpl. by rewrite Hr.
Qed.

Lemma natural_call_get_queryset : ignore_method → natural call_get_queryset.
Proof.
  intros (Hq & _) s _.
  unfold call_get_queryset, ask, map_final; simpl. by rewrite Hq.
Qed.

Lemma natural_formset_valid formset : natural (formset_valid formset).
Proof.
  intros s _. unfold formset_valid. rewrite !bind_get_self.
  change (klass (self (to_post s))) with (klass (self s)).
  destruct (is_document_view (klass (self s))).
  - unfold DocumentFormSetMixin_formset_valid, bind at 1 3, call_save; simpl.
    by destruct (save formset (store s)) as [[saved|e] st].
  - unfold FormSetMixin_formset_valid. by rewrite !bind_get_self.
Qed.

Lemma natural_bind {A B} (m : M A) (k : A → M B) :
  natural m → keeps_settings m → (∀ a, natural (k a)) → natural (bind m k).
Proof.
  intros Hm Hkeep Hk s Hs. unfold bind. rewrite (Hm s Hs).
  unfold map_final; cbn [returned final calls].
  destruct (returned (m s)) as [a|e]; [|done].
  rewrite Hk; [done|].
  unfold submitted.
  change (request (self (final (m s))))
    with (request (settings (self (final (m s))))).
  by rewrite Hkeep.
Qed.

Lemma natural_post : ignore_method → natural post.
Proof.
  intros Hi.
  assert (Hp : natural ProcessFormSetView_post).
  { apply natural_bind;
      [by apply natural_construct_formset
      |autounfold with frame; auto 30 with frame|].
    intros formset. apply natural_bind; [done..|].
    intros [|]; [apply natural_formset_valid|].
    apply natural_bind;
      [by apply natural_get_context_data
      |autounfold with frame; auto 30 with frame
      |intros context; by apply natural_call_render_to_response]. }
  intros s Hs. unfold post. rewrite !bind_get_self.
  change (klass (self (to_post s))) with (klass (self s)).
  destruct (is_document_view (klass (self s))); [|by apply Hp].
  apply natural_bind; [by apply natural_call_get_queryset|done| |done].
  intros q. apply natural_bind; [done..|]. by intros _.
Qed.

End Runs.

(** ** Runs on the concrete collaborators *)

Example page_is_rendered_with_blank_formset :
  returned (get Demo.page_request) =
    Ok (Rendered (VList [VStr "page"; Demo.formset_of VNone])) ∧
  object_list (self (final (get Demo.page_request))) =
    Some (VList Demo.shelf) ∧
  store (final (get Demo.page_request)) = Demo.shelf.
Proof. by repeat split. Qed.

Example valid_submission_is_saved :
  returned (post Demo.valid_submission) =
    Ok (HttpResponseRedirect (VStr "/books/")) ∧
  saved_formsets (calls (post Demo.valid_submission)) =
    [Demo.formset_of (VList [Demo.book "Dune"])] ∧
  store (final (post Demo.valid_submission)) =
    [Demo.book "Emma"; Demo.book "Dune"].
Proof. by repeat split. Qed.

Example invalid_submission_is_rendered :
  returned (post Demo.invalid_submission) =
    Ok (Rendered (VList [VStr "page"; Demo.formset_of (VList [])])) ∧
  saved_formsets (calls (post Demo.invalid_submission)) = [] ∧
  object_list (self (final (post Demo.invalid_submission))) =
    Some (VList Demo.shelf).
Proof. by repeat split. Qed.

Example success_url_examples :
  get_success_url (Demo.books_view_to (VStr "/done/") Demo.get_request) =
    VStr "/done/" ∧
  get_success_url (Demo.books_view Demo.get_request) =
    VStr "/books/?page=2" ∧
  get_success_url (Demo.books_view_to (VStr "") Demo.get_request) =
    VStr "/books/?page=2".
Proof. by repeat split. Qed.

Example unset_object_list_raises :
  returned
    (DocumentFormSetMixin_get_context_data ∅
       (Demo.start (Demo.books_view Demo.get_request) Demo.shelf)) =
  Raise (AttributeError "object_list").
Proof. reflexivity. Qed.

(** ** The properties of the specification *)

Section Properties.
Context `{C : Collaborators}.

(** C1, as amended.  In a document-formset view, a submission whose
    formset is valid is handled by [formset_valid], which calls the
    formset's [save()], stores exactly the returned collection in
    [object_list], and only then runs the base success handler, in the
    state where the assignment is done.  The handler answers with the
    redirect to the success URL when [HttpResponseRedirect] accepts
    that URL, and with the exception of its check otherwise; in both
    cases the formset has been saved and [object_list] replaced.  The
    same holds when the submission arrives as a PUT, since [put] is
    [post]. *)
Theorem document_formset_valid_saves s s0 formset saved st' :
  is_document_view (klass (self s)) = true →
  processing_state s = Some s0 →
  returned (construct_formset s0) = Ok formset →
  is_valid formset (store s) = Ok true →
  save formset (store s) = (Ok saved, st') →
  DocumentFormSetMixin_formset_valid formset s0 =
    preceded_by [EvSave formset]
      (FormSetMixin_formset_valid formset
         {| self := set_object_list saved (self s0); store := st' |}) ∧
  (disallowed_redirect (get_success_url (self s)) = None →
   returned (post s) = Ok (HttpResponseRedirect (get_success_url (self s)))) ∧
  (∀ e, disallowed_redirect (get_success_url (self s)) = Some e →
        returned (post s) = Raise e) ∧
  object_list (self (final (post s))) = Some saved ∧
  store (final (post s)) = st' ∧
  saved_formsets (calls (post s)) = [formset] ∧
  put s = post s.
Proof.
  intros Hd Hp Hc Hv Hs.
  destruct (processing_state_facts s s0 Hp) as (Hst & Hk & Hrq & Hurl & _).
  assert (Hvalid : DocumentFormSetMixin_formset_valid formset s0 =
    preceded_by [EvSave formset]
      (FormSetMixin_formset_valid formset
         {| self := set_object_list saved (self s0); store := st' |})).
  { unfold DocumentFormSetMixin_formset_valid, bind at 1, call_save.
    by rewrite Hst, Hs. }
  split; [done|].
  assert (Hpost : post s =
    preceded_by
      (fetch_calls (self s) ++ calls (construct_formset s0) ++
       [EvIsValid formset; EvSave formset])
      (of_outcome (new_HttpResponseRedirect (get_success_url (self s)))
         {| self := set_object_list saved (self s0); store := st' |})).
  { rewrite (post_processing s s0 Hp).
    rewrite (ProcessFormSetView_post_routes s0 formset true Hc)
      by by rewrite Hst.
    unfold formset_valid. rewrite bind_get_self, Hk, Hd, Hvalid.
    unfold FormSetMixin_formset_valid. rewrite bind_get_self.
    unfold preceded_by, of_outcome, get_success_url, get_full_path; simpl.
    rewrite Hurl, Hrq, app_nil_r, <- !app_assoc. done. }
  split; [|split; [|repeat split; try (by rewrite Hpost)]].
  - intros Hok. rewrite Hpost; simpl.
    unfold new_HttpResponseRedirect. by rewrite Hok.
  - intros e He. rewrite Hpost; simpl.
    unfold new_HttpResponseRedirect. by rewrite He.
  - rewrite Hpost; simpl.
    rewrite app_nil_r, !saved_formsets_app, construct_formset_saves_nothing.
    unfold fetch_calls. by destruct (is_document_view _).
Qed.

(** C2. A submission whose formset fails validation is routed to
    [formset_invalid]; the template is rendered once, with a context in
    which the key ["formset"] holds the very formset that was validated,
    built from the submitted data and files; [save()] is not called and
    the store is left as it was.  [ContextMixin.get_context_data] is
    only assumed to keep the ["formset"] entry it is given. *)
Theorem invalid_submission_rerenders s s0 formset :
  processing_state s = Some s0 →
  returned (construct_formset s0) = Ok formset →
  is_valid formset (store s) = Ok false →
  (∀ v (kw : kwargs) x,
     kw !! "formset" = Some x →
     ContextMixin_get_context_data v kw !! "formset" = Some x) →
  ∃ context,
    let before :=
      fetch_calls (self s) ++ calls (construct_formset s0) ++
      [EvIsValid formset] in
    context !! "formset" = Some formset ∧
    post s = preceded_by before (formset_invalid formset s0) ∧
    formset_invalid formset s0 = call_render_to_response context s0 ∧
    calls (post s) = before ++ [EvRender context] ∧
    saved_formsets (calls (post s)) = [] ∧
    store (final (post s)) = store s ∧
    (method (request (self s)) = "POST" ∨ method (request (self s)) = "PUT" →
     ∃ fcls ikw,
       EvInstantiate fcls ikw ∈ calls (post s) ∧
       formset_init fcls ikw = Ok formset ∧
       ikw !! "data" = Some (POST (request (self s))) ∧
       ikw !! "files" = Some (FILES (request (self s)))).
Proof.
  intros Hp Hc Hv Hkeep.
  destruct (processing_state_facts s s0 Hp) as (Hst & Hk & Hrq & _ & Hol).
  rewrite <- Hk in Hol.
  destruct (built_context_keeps (self s0) {["formset" := formset]} Hol)
    as (passed & Hb & Hpassed).
  exists (ContextMixin_get_context_data (self s0) passed). cbv zeta.
  assert (Hinv := formset_invalid_renders formset s0 _ Hb).
  assert (Hpost : post s =
    preceded_by
      (fetch_calls (self s) ++ calls (construct_formset s0) ++
       [EvIsValid formset]) (formset_invalid formset s0)).
  { rewrite (post_processing s s0 Hp).
    rewrite (ProcessFormSetView_post_routes s0 formset false Hc)
      by by rewrite Hst.
    unfold preceded_by; simpl. by rewrite <- !app_assoc. }
  split; [apply Hkeep, Hpassed, lookup_singleton_eq|].
  split; [done|]. split; [done|].
  rewrite Hpost, Hinv; simpl.
  split; [done|]. split; [|split; [done|]].
  - rewrite !saved_formsets_app, construct_formset_saves_nothing.
    unfold fetch_calls. by destruct (is_document_view (klass (self s))).
  - intros Hm. rewrite <- Hrq in *.
    destruct (construct_formset_Ok s0 formset Hc) as (fcls & q & _ & Hi & _ & Hin).
    destruct (instantiation_kwargs_lookup (self s0) q) as (_ & Hdata & Hfiles).
    destruct (formset_kwargs_lookup_submitted (self s0) Hm) as [Hd Hf].
    exists fcls, (instantiation_kwargs (self s0) q).
    split; [rewrite !elem_of_app; auto|]. split; [done|]. split; congruence.
Qed.

(** C3. The redirect target computed by [get_success_url] is the
    configured [success_url] when it is set (truthy: neither [None] nor
    empty), and the full path of the current request otherwise; every
    redirect the success handler returns goes there. *)
Theorem redirect_goes_to_success_url_or_request_path s formset :
  let v := self s in
  (truthy (success_url v) = true → get_success_url v = success_url v) ∧
  (truthy (success_url v) = false →
   get_success_url v = VStr (full_path (request v))) ∧
  (∀ r, returned (formset_valid formset s) = Ok r →
        r = HttpResponseRedirect (get_success_url v)).
Proof.
  cbv zeta. split; [|split].
  - unfold get_success_url. by intros ->.
  - unfold get_success_url. by intros ->.
  - intros r. unfold formset_valid. rewrite bind_get_self.
    destruct (is_document_view (klass (self s))).
    + unfold DocumentFormSetMixin_formset_valid, bind at 1, call_save.
      destruct (save formset (store s)) as [[saved|e] st']; simpl;
        [|discriminate].
      unfold new_HttpResponseRedirect.
      destruct (disallowed_redirect _); [discriminate|].
      by intros [= <-].
    + unfold FormSetMixin_formset_valid. rewrite bind_get_self. simpl.
      unfold new_HttpResponseRedirect.
      destruct (disallowed_redirect _); [discriminate|].
      by intros [= <-].
Qed.

(** C4. The bundle built by [get_formset_kwargs] carries the submitted
    data and the uploaded files exactly when the method of the request
    is POST or PUT, and the call to the formset class carries them
    exactly when the bundle does.  For a GET request, every call to the
    formset class made by the handler is unbound and takes the
    configured initial values, and every factory call takes the
    configured [extra] and [max_num].  The formset that
    [construct_formset] returns is made by an unbound call to the very
    class that the factory returned for the bundle holding the
    configured [extra] and [max_num], the factory call coming first. *)
Theorem formset_kwargs_bound_iff_submitted (v : View) (s : state) :
  method (request (self s)) = "GET" →
  let kw := BaseFormSetMixin_get_formset_kwargs v in
  let submitted := method (request v) = "POST" ∨ method (request v) = "PUT" in
  (kw !! "data" = Some (POST (request v)) ∧
   kw !! "files" = Some (FILES (request v)) ↔ submitted) ∧
  (unbound kw ↔ ¬ submitted) ∧
  (∀ s1 kw', self s1 = v → returned (get_formset_kwargs s1) = Ok kw' →
     kw' !! "data" = kw !! "data" ∧ kw' !! "files" = kw !! "files") ∧
  (∀ q, instantiation_kwargs v q !! "data" = kw !! "data" ∧
        instantiation_kwargs v q !! "files" = kw !! "files") ∧
  (∀ fcls ikw, EvInstantiate fcls ikw ∈ calls (get s) →
     unbound ikw ∧ ikw !! "initial" = Some (initial (self s))) ∧
  (∀ doc args fkw, EvFactory doc args fkw ∈ calls (get s) →
     fkw !! "extra" = Some (extra (self s)) ∧
     fkw !! "max_num" = Some (max_num (self s))) ∧
  (∀ s0 formset,
     processing_state s = Some s0 →
     returned (construct_formset s0) = Ok formset →
     ∃ fcls ikw before between after,
       documentformset_factory (document (self s)) (factory_args (self s))
         (get_factory_kwargs (self s)) = Ok fcls ∧
       get_factory_kwargs (self s) !! "extra" = Some (extra (self s)) ∧
       get_factory_kwargs (self s) !! "max_num" = Some (max_num (self s)) ∧
       formset_init fcls ikw = Ok formset ∧
       unbound ikw ∧ ikw !! "initial" = Some (initial (self s)) ∧
       calls (get s) =
         before ++
         EvFactory (document (self s)) (factory_args (self s))
           (get_factory_kwargs (self s)) ::
         between ++ EvInstantiate fcls ikw :: after).
Proof.
  intros Hget kw submitted.
  assert (Hno : ¬ submitted → kw = ∅).
  { intros Hn. apply formset_kwargs_unsubmitted; intros ?; apply Hn;
      [by left | by right]. }
  assert (Hdec : submitted ∨ ¬ submitted).
  { unfold submitted.
    destruct (decide (method (request v) = "POST"));
      destruct (decide (method (request v) = "PUT")); tauto. }
  split; [|split; [|split; [|split; [|split; [|split]]]]].
  - split; [|apply formset_kwargs_lookup_submitted].
    intros [Hd _]. destruct Hdec as [|Hn]; [done|].
    by rewrite (Hno Hn) in Hd.
  - unfold unbound. split.
    + intros [Hd _] Hs.
      destruct (formset_kwargs_lookup_submitted v Hs) as [Hd' _].
      fold kw in Hd'. congruence.
    + intros Hn. by rewrite (Hno Hn).
  - intros s1 kw' <-. rewrite get_formset_kwargs_run.
    destruct (is_document_view (klass (self s1))).
    + unfold bind, call_get_queryset, ask; simpl.
      destruct (get_queryset (self s1) (store s1)); simpl; [|done].
      intros [= <-]. by rewrite !lookup_insert_ne.
    + by intros [= <-].
  - intros q. apply instantiation_kwargs_lookup.
  - intros fcls ikw Hin.
    destruct (get_construction s _ Hin eq_refl) as (s0 & Hp & Hin0).
    destruct (factory_call_of_settings _ _ (processing_state_settings s s0 Hp))
      as (_ & _ & _ & Hikw).
    apply construct_formset_calls in Hin0
      as [?|[?|(fcls' & q & [= -> ->])]]; try discriminate.
    rewrite Hikw.
    destruct (instantiation_kwargs_lookup (self s) q) as (Hi & Hd & Hf).
    unfold unbound. rewrite Hi, Hd, Hf.
    rewrite formset_kwargs_unsubmitted; by rewrite ?Hget.
  - intros doc args fkw Hin.
    destruct (get_construction s _ Hin eq_refl) as (s0 & Hp & Hin0).
    destruct (factory_call_of_settings _ _ (processing_state_settings s s0 Hp))
      as (_ & _ & Hfkw & _).
    apply construct_formset_calls in Hin0
      as [[= -> -> ->]|[?|(? & ? & ?)]]; try discriminate.
    rewrite Hfkw. unfold get_factory_kwargs.
    destruct (is_document_view (klass (self s)));
      [destruct (factory_kwargs_document (self s)) as (? & ? & _)
      |destruct (factory_kwargs_base (self s)) as (? & ? & _)]; done.
  - intros s0 formset Hp Hc.
    destruct (factory_call_of_settings _ _ (processing_state_settings s s0 Hp))
      as (Hd & Ha & Hfkw & Hikw).
    destruct (construct_formset_Ok_calls s0 formset Hc)
      as (fcls & q & between & Hf & Hi & Hcalls).
    rewrite Hd, Ha, Hfkw, Hikw in *.
    assert (Hbundle :
      get_factory_kwargs (self s) !! "extra" = Some (extra (self s)) ∧
      get_factory_kwargs (self s) !! "max_num" = Some (max_num (self s))).
    { unfold get_factory_kwargs.
      destruct (is_document_view (klass (self s)));
        [destruct (factory_kwargs_document (self s)) as (? & ? & _)
        |destruct (factory_kwargs_base (self s)) as (? & ? & _)]; done. }
    destruct (instantiation_kwargs_lookup (self s) q) as (Hinit & Hdata & Hfiles).
    assert (Hunbound : unbound (instantiation_kwargs (self s) q)).
    { unfold unbound. rewrite Hdata, Hfiles.
      rewrite formset_kwargs_unsubmitted; by rewrite ?Hget. }
    rewrite (get_processing s s0 Hp). unfold ProcessFormSetView_get.
    rewrite (bind_Ok _ _ s0 formset Hc). simpl. rewrite Hcalls.
    exists fcls, (instantiation_kwargs (self s) q), (fetch_calls (self s)),
      between.
    eexists. split; [done|]. split; [apply Hbundle|]. split; [apply Hbundle|].
    split; [done|]. split; [done|]. split; [done|].
    simpl. rewrite <- app_assoc. reflexivity.
Qed.

(** C5, as amended.  The PUT handler is the POST handler: on every
    state the two return the same response or exception, leave the same
    state and make the same calls.  So, when the collaborators that
    receive the view do not look at the method, a PUT is handled
    exactly as the POST that reaches the view with the same
    [request.POST] and [request.FILES].  For a PUT the framework leaves
    both empty whatever the body holds: the PUT with a given body is
    handled as the POST with an empty body, with an instantiation
    bundle holding that empty data. *)
Theorem put_delegates_to_post s v body uploads path st :
  let put_request := http_request "PUT" body uploads path in
  let empty_post := http_request "POST" empty_QueryDict empty_QueryDict path in
  put s = post s ∧
  ProcessFormSetView_put s = post s ∧
  (ignore_method → submitted (self s) →
   returned (post (to_post s)) = returned (put s) ∧
   calls (post (to_post s)) = calls (put s) ∧
   final (post (to_post s)) = to_post (final (put s))) ∧
  to_post (serving v put_request st) = serving v empty_post st ∧
  BaseFormSetMixin_get_formset_kwargs (with_request put_request v) =
    <["data" := empty_QueryDict]> (<["files" := empty_QueryDict]> ∅) ∧
  (ignore_method →
   returned (post (serving v empty_post st)) =
     returned (put (serving v put_request st)) ∧
   calls (post (serving v empty_post st)) =
     calls (put (serving v put_request st)) ∧
   store (final (post (serving v empty_post st))) =
     store (final (put (serving v put_request st)))).
Proof.
  cbv zeta.
  assert (Hnat : ignore_method → ∀ s', submitted (self s') →
    returned (post (to_post s')) = returned (put s') ∧
    calls (post (to_post s')) = calls (put s') ∧
    final (post (to_post s')) = to_post (final (put s'))).
  { intros Hi s' Hs. change (put s') with (post s').
    by rewrite (natural_post Hi s' Hs). }
  split; [done|]. split; [done|].
  split; [intros Hi Hs; by apply Hnat|].
  split; [done|]. split; [by apply formset_kwargs_submitted; right|].
  intros Hi.
  destruct (Hnat Hi (serving v (http_request "PUT" body uploads path) st))
    as (Hr & Hc & Hf); [by right|].
  change (to_post (serving v (http_request "PUT" body uploads path) st))
    with (serving v
            (http_request "POST" empty_QueryDict empty_QueryDict path) st)
    in Hr, Hc, Hf.
  split; [done|]. split; [done|]. by rewrite Hf.
Qed.

(** C6, as amended.  When the candidate list is non-empty (truthy),
    [get_context_data] hands to [ContextMixin.get_context_data] a
    context in which every entry of the caller wins, ["object_list"]
    holds the list unless the caller supplied that key, the name given
    by [get_context_object_name] holds the list when that name is a
    non-empty string the caller did not supply, and there is no other
    key. *)
Theorem context_injects_below_caller_kwargs s (kw : kwargs) ol :
  object_list (self s) = Some ol →
  truthy ol = true →
  let v := self s in
  let context := DocumentFormSetMixin_context v ol kw in
  DocumentFormSetMixin_get_context_data kw s =
    ret (ContextMixin_get_context_data v context) s ∧
  (∀ k x, kw !! k = Some x → context !! k = Some x) ∧
  (kw !! "object_list" = None → context !! "object_list" = Some ol) ∧
  (∀ name, get_context_object_name v ol = Some name → name ≠ "" →
           kw !! name = None → context !! name = Some ol) ∧
  (∀ k, is_Some (context !! k) →
        is_Some (kw !! k) ∨ k = "object_list" ∨
        (get_context_object_name v ol = Some k ∧ k ≠ "")).
Proof.
  intros Hol Ht v context. subst v context.
  split; [|split; [apply context_keeps_caller_entries|]].
  { unfold DocumentFormSetMixin_get_context_data.
    rewrite bind_get_self. by rewrite Hol. }
  unfold DocumentFormSetMixin_context. rewrite Ht.
  destruct (get_context_object_name (self s) ol) as [name|]; simpl.
  - destruct (String.eqb_spec name "") as [->|Hne]; simpl.
    + split; [|split].
      * intros Hk. by rewrite dict_update_lookup, Hk, lookup_insert_eq.
      * by intros ? [= <-].
      * intros k. rewrite dict_update_lookup.
        destruct (kw !! k); [auto|].
        destruct (decide (k = "object_list")) as [->|]; [auto|].
        rewrite lookup_insert_ne, lookup_empty by done. by intros [].
    + split; [|split].
      * intros Hk. rewrite dict_update_lookup, Hk.
        destruct (decide (name = "object_list")) as [->|];
          [by rewrite lookup_insert_eq|].
        by rewrite lookup_insert_ne, lookup_insert_eq.
      * intros ? [= <-] _ Hk.
        by rewrite dict_update_lookup, Hk, lookup_insert_eq.
      * intros k. rewrite dict_update_lookup.
        destruct (kw !! k); [auto|].
        destruct (decide (k = name)) as [->|]; [auto|].
        destruct (decide (k = "object_list")) as [->|]; [auto|].
        rewrite !lookup_insert_ne, lookup_empty by done. by intros [].
  - split; [|split].
    + intros Hk. by rewrite dict_update_lookup, Hk, lookup_insert_eq.
    + done.
    + intros k. rewrite dict_update_lookup.
      destruct (kw !! k); [auto|].
      destruct (decide (k = "object_list")) as [->|]; [auto|].
      rewrite lookup_insert_ne, lookup_empty by done. by intros [].
Qed.

(** C7. The factory bundle holds each configuration value of the view
    under the key of the same name: [extra], [max_num], [can_order] and
    [can_delete] for every class, and also [exclude], [fields] and
    [formfield_callback] for the document classes.  That bundle, with
    the configured document, is what every factory call of a handler
    receives, and no handler changes an attribute of the view other than
    [object_list]. *)
Theorem configuration_reaches_factory_unchanged s :
  let v := self s in
  let base := BaseFormSetMixin_get_factory_kwargs v in
  let doc := DocumentFormSetMixin_get_factory_kwargs v in
  (base !! "extra" = Some (extra v) ∧ base !! "max_num" = Some (max_num v) ∧
   base !! "can_order" = Some (can_order v) ∧
   base !! "can_delete" = Some (can_delete v)) ∧
  (doc !! "extra" = Some (extra v) ∧ doc !! "max_num" = Some (max_num v) ∧
   doc !! "can_order" = Some (can_order v) ∧
   doc !! "can_delete" = Some (can_delete v) ∧
   doc !! "exclude" = Some (exclude v) ∧ doc !! "fields" = Some (fields v) ∧
   doc !! "formfield_callback" = Some (formfield_callback v)) ∧
  get_factory_kwargs v = (if is_document_view (klass v) then doc else base) ∧
  head (calls (construct_formset s)) =
    Some (EvFactory (document v) (factory_args v) (get_factory_kwargs v)) ∧
  (∀ d args fkw,
     EvFactory d args fkw ∈ calls (get s) ∨
     EvFactory d args fkw ∈ calls (post s) ∨
     EvFactory d args fkw ∈ calls (put s) →
     d = document v ∧ args = factory_args v ∧ fkw = get_factory_kwargs v) ∧
  settings (self (final (get s))) = settings v ∧
  settings (self (final (post s))) = settings v ∧
  settings (self (final (put s))) = settings v.
Proof.
  cbv zeta.
  split; [apply factory_kwargs_base|].
  split; [apply factory_kwargs_document|].
  split; [done|].
  split; [by destruct (construct_formset_constructs s)|].
  split; [|by rewrite get_keeps_settings, !post_keeps_settings].
  intros d args fkw Hin.
  assert (∃ s0, processing_state s = Some s0 ∧
                EvFactory d args fkw ∈ calls (construct_formset s0))
    as (s0 & Hp & Hin0).
  { destruct Hin as [Hin|[Hin|Hin]];
      [by apply get_construction
      |by apply post_construction
      |by apply post_construction]. }
  destruct (factory_call_of_settings _ _ (processing_state_settings s s0 Hp))
    as (Hd & Ha & Hfkw & _).
  apply construct_formset_calls in Hin0
    as [[= -> -> ->]|[?|(? & ? & ?)]]; try discriminate.
  done.
Qed.

(** C8. In a document-formset view, the first thing [get] and [post]
    do is the query: when it answers, its result is assigned to
    [object_list] and the request-processing layer runs in the state
    where the assignment is done, so no formset is built before; when
    it raises, nothing else happens. *)
Theorem document_view_fetches_first s :
  is_document_view (klass (self s)) = true →
  head (calls (get s)) = Some EvGetQueryset ∧
  head (calls (post s)) = Some EvGetQueryset ∧
  (∀ q, get_queryset (self s) (store s) = Ok q →
     object_list (self (fetch_object_list q s)) = Some q ∧
     get s =
       preceded_by [EvGetQueryset]
         (ProcessFormSetView_get (fetch_object_list q s)) ∧
     post s =
       preceded_by [EvGetQueryset]
         (ProcessFormSetView_post (fetch_object_list q s))) ∧
  (∀ e, get_queryset (self s) (store s) = Raise e →
     get s = {| returned := Raise e; final := s; calls := [EvGetQueryset] |} ∧
     post s = {| returned := Raise e; final := s; calls := [EvGetQueryset] |}).
Proof.
  intros Hd.
  assert (Hg : get s =
    match get_queryset (self s) (store s) with
    | Ok q => preceded_by [EvGetQueryset]
                (ProcessFormSetView_get (fetch_object_list q s))
    | Raise e =>
        {| returned := Raise e; final := s; calls := [EvGetQueryset] |}
    end).
  { unfold get. rewrite bind_get_self, Hd. apply fetch_then. }
  assert (Hp : post s =
    match get_queryset (self s) (store s) with
    | Ok q => preceded_by [EvGetQueryset]
                (ProcessFormSetView_post (fetch_object_list q s))
    | Raise e =>
        {| returned := Raise e; final := s; calls := [EvGetQueryset] |}
    end).
  { unfold post. rewrite bind_get_self, Hd. apply fetch_then. }
  rewrite Hg, Hp.
  destruct (get_queryset (self s) (store s)) as [q|e];
    (split; [done|]); (split; [done|]);
    split; intros ? [= <-]; by repeat split.
Qed.

(** C9. A GET leaves the store and the configuration of the view as
    it found them and saves no formset, so a second GET, served by a
    view with the same attributes on the store the first one left, runs
    exactly as the first: same response, same factory call (row counts)
    and same call to the formset class (initial values, no data), hence
    the same formset. *)
Theorem consecutive_gets_agree s s2 :
  self s2 = self s →
  store s2 = store (final (get s)) →
  store (final (get s)) = store s ∧
  settings (self (final (get s))) = settings (self s) ∧
  saved_formsets (calls (get s)) = [] ∧
  get s2 = get s ∧
  (∀ s0, processing_state s = Some s0 →
     processing_state s2 = Some s0 ∧
     ∀ e, e ∈ calls (construct_formset s0) → constructing e = true →
          e ∈ calls (get s) ∧ e ∈ calls (get s2)).
Proof.
  intros Hself Hstore.
  destruct (get_reads_only s) as [Hs Hc].
  assert (s2 = s) as ->.
  { destruct s2, s; simpl in *. congruence. }
  repeat split; try done; try apply get_keeps_settings.
  all: rewrite (get_processing s s0) by done;
    unfold ProcessFormSetView_get, bind at 1;
    destruct (returned (construct_formset s0)); simpl;
    rewrite !elem_of_app; auto.
Qed.

(** C10. When the candidate list is empty, [None] or otherwise falsy,
    [get_context_data] injects nothing: the context handed to
    [ContextMixin.get_context_data] is the caller's keyword arguments,
    and an empty list gives the same context as [None]. *)
Theorem falsy_object_list_injects_nothing s (kw : kwargs) ol :
  object_list (self s) = Some ol →
  truthy ol = false →
  DocumentFormSetMixin_context (self s) ol kw = kw ∧
  DocumentFormSetMixin_get_context_data kw s =
    ret (ContextMixin_get_context_data (self s) kw) s ∧
  (kw !! "object_list" = None →
   DocumentFormSetMixin_context (self s) ol kw !! "object_list" = None) ∧
  (∀ name, get_context_object_name (self s) ol = Some name →
           kw !! name = None →
           DocumentFormSetMixin_context (self s) ol kw !! name = None) ∧
  DocumentFormSetMixin_context (self s) (VList []) kw =
  DocumentFormSetMixin_context (self s) VNone kw.
Proof.
  intros Hol Ht.
  assert (Hctx : DocumentFormSetMixin_context (self s) ol kw = kw).
  { unfold DocumentFormSetMixin_context. rewrite Ht.
    apply dict_update_empty. }
  rewrite Hctx. repeat split; try done.
  unfold DocumentFormSetMixin_get_context_data.
  rewrite bind_get_self, Hol. by rewrite Hctx.
Qed.

End Properties.

(** ** The properties on the concrete collaborators *)

Lemma document_formset_valid_saves_witness :
  is_valid (Demo.formset_of (VList [Demo.book "Dune"]))
    (store Demo.valid_submission) = Ok true ∧
  returned (post Demo.valid_submission) =
    Ok (HttpResponseRedirect (VStr "/books/")) ∧
  object_list (self (final (post Demo.valid_submission))) =
    Some (VList [Demo.book "Dune"]) ∧
  store (final (post Demo.valid_submission)) =
    [Demo.book "Emma"; Demo.book "Dune"].
Proof.
  split; [reflexivity|].
  destruct (document_formset_valid_saves Demo.valid_submission _ _ _ _
              eq_refl eq_refl eq_refl eq_refl eq_refl)
    as (_ & H1 & _ & H2 & H3 & _).
  split; [exact (H1 eq_refl)|]. split; [exact H2 | exact H3].
Defined.

(** C1 as stated fails: the formset of this submission is valid and is
    saved, yet the success handler returns no redirect, because
    [HttpResponseRedirect] refuses the configured success URL. *)
Lemma valid_submission_to_refused_url_is_not_redirected :
  is_document_view (klass (self Demo.unsafe_submission)) = true ∧
  is_valid (Demo.formset_of (VList [Demo.book "Dune"]))
    (store Demo.unsafe_submission) = Ok true ∧
  saved_formsets (calls (post Demo.unsafe_submission)) =
    [Demo.formset_of (VList [Demo.book "Dune"])] ∧
  object_list (self (final (post Demo.unsafe_submission))) =
    Some (VList [Demo.book "Dune"]) ∧
  returned (post Demo.unsafe_submission) =
    Raise (Raised (VStr "DisallowedRedirect")) ∧
  ¬ ∃ url,
      returned (post Demo.unsafe_submission) = Ok (HttpResponseRedirect url).
Proof.
  assert (Hret : returned (post Demo.unsafe_submission) =
                 Raise (Raised (VStr "DisallowedRedirect"))) by reflexivity.
  repeat split; try reflexivity.
  intros (url & Hurl). rewrite Hret in Hurl. discriminate.
Qed.

Lemma invalid_submission_rerenders_witness :
  is_valid (Demo.formset_of (VList [])) (store Demo.invalid_submission) =
    Ok false ∧
  saved_formsets (calls (post Demo.invalid_submission)) = [] ∧
  store (final (post Demo.invalid_submission)) = Demo.shelf.
Proof.
  split; [reflexivity|].
  destruct (invalid_submission_rerenders Demo.invalid_submission _ _
              eq_refl eq_refl eq_refl (fun _ _ _ H => H))
    as (context & _ & _ & _ & _ & H1 & H2 & _).
  split; [exact H1 | exact H2].
Defined.

Lemma formset_kwargs_bound_iff_submitted_witness :
  method (request (self Demo.page_request)) = "GET" ∧
  unbound
    (instantiation_kwargs (self Demo.page_request)
       (Some (VList Demo.shelf))) ∧
  get_factory_kwargs (self Demo.page_request) !! "extra" = Some (VInt 2) ∧
  ∃ fcls ikw,
    @documentformset_factory Demo.collaborators (VStr "book") []
      (get_factory_kwargs (self Demo.page_request)) = Ok fcls ∧
    @formset_init Demo.collaborators fcls ikw = Ok (Demo.formset_of VNone) ∧
    unbound ikw.
Proof.
  destruct (formset_kwargs_bound_iff_submitted
              (self Demo.valid_submission) Demo.page_request eq_refl)
    as (_ & _ & _ & _ & Hinit & Hfactory & Hbuilt).
  split; [reflexivity|]. split; [|split].
  - apply (Hinit (VList [VStr "FormSet"; VStr "book"])).
    do 3 apply list_elem_of_further. apply list_elem_of_here.
  - apply (Hfactory (VStr "book") []). apply list_elem_of_further.
    apply list_elem_of_here.
  - destruct (Hbuilt _ (Demo.formset_of VNone) eq_refl eq_refl)
      as (fcls & ikw & _ & _ & _ & Hf & _ & _ & Hi & Hu & _).
    exists fcls, ikw. split; [exact Hf|]. split; [exact Hi | exact Hu].
Defined.

Lemma put_delegates_to_post_witness :
  ignore_method (C := Demo.collaborators) ∧
  returned (put Demo.put_submission) = returned (post Demo.invalid_submission) ∧
  calls (put Demo.put_submission) = calls (post Demo.invalid_submission).
Proof.
  assert (Hi : ignore_method (C := Demo.collaborators)) by by repeat split.
  destruct (put_delegates_to_post Demo.put_submission
              (Demo.books_view Demo.get_request)
              (VList [Demo.book "Dune"]) (VList []) "/books/" Demo.shelf)
    as (_ & _ & _ & _ & _ & H).
  destruct (H Hi) as (H1 & H2 & _).
  split; [exact Hi|]. split; [symmetry; exact H1 | symmetry; exact H2].
Defined.

(** C5 as stated fails: the POST with this body is saved and
    redirected, while the PUT with the identical body reaches the view
    with an empty [request.POST], fails validation and is rendered. *)
Lemma put_with_the_body_of_a_post_is_not_saved :
  request (self Demo.valid_submission) =
    http_request "POST" (VList [Demo.book "Dune"]) (VList []) "/books/" ∧
  request (self Demo.put_submission) =
    http_request "PUT" (VList [Demo.book "Dune"]) (VList []) "/books/" ∧
  returned (post Demo.valid_submission) =
    Ok (HttpResponseRedirect (VStr "/books/")) ∧
  store (final (post Demo.valid_submission)) =
    [Demo.book "Emma"; Demo.book "Dune"] ∧
  returned (put Demo.put_submission) =
    Ok (Rendered (VList [VStr "page"; Demo.formset_of (VList [])])) ∧
  store (final (put Demo.put_submission)) = [Demo.book "Emma"] ∧
  returned (put Demo.put_submission) ≠ returned (post Demo.valid_submission).
Proof.
  assert (Hput : returned (put Demo.put_submission) =
    Ok (Rendered (VList [VStr "page"; Demo.formset_of (VList [])])))
    by reflexivity.
  assert (Hpost : returned (post Demo.valid_submission) =
    Ok (HttpResponseRedirect (VStr "/books/"))) by reflexivity.
  repeat split; try reflexivity.
  rewrite Hput, Hpost. discriminate.
Qed.

Lemma context_injects_below_caller_kwargs_witness :
  truthy (VList Demo.shelf) = true ∧
  DocumentFormSetMixin_context (C := Demo.collaborators)
    (self Demo.page_request) (VList Demo.shelf) ∅
    !! "book_list" = Some (VList Demo.shelf).
Proof.
  split; [reflexivity|].
  destruct (context_injects_below_caller_kwargs
              (fetch_object_list (VList Demo.shelf) Demo.page_request)
              ∅ (VList Demo.shelf) eq_refl eq_refl)
    as (_ & _ & _ & H & _).
  apply (H "book_list"); [reflexivity | discriminate | reflexivity].
Defined.

(** C6 as stated fails: the candidate list holds a book, yet the
    context gets the generic key only, since the view has no context
    object name. *)
Lemma context_without_model_specific_key :
  object_list (self (Demo.start Demo.nameless_view Demo.shelf)) =
    Some (VList Demo.shelf) ∧
  truthy (VList Demo.shelf) = true ∧
  returned (get_context_data ∅ (Demo.start Demo.nameless_view Demo.shelf)) =
    Ok {["object_list" := VList Demo.shelf]} ∧
  ¬ ∃ name context,
      name ≠ "object_list" ∧
      returned
        (get_context_data ∅ (Demo.start Demo.nameless_view Demo.shelf)) =
        Ok context ∧
      is_Some (context !! name).
Proof.
  assert (Hret :
    returned (get_context_data ∅ (Demo.start Demo.nameless_view Demo.shelf)) =
    Ok {["object_list" := VList Demo.shelf]}) by reflexivity.
  split; [reflexivity|]. split; [reflexivity|]. split; [exact Hret|].
  intros (name & context & Hne & Hr & Hsome).
  rewrite Hret in Hr. injection Hr as <-.
  rewrite lookup_singleton_ne in Hsome by done.
  by destruct Hsome.
Qed.

Lemma document_view_fetches_first_witness :
  is_document_view (klass (self Demo.page_request)) = true ∧
  head (calls (get Demo.page_request)) = Some EvGetQueryset ∧
  head (calls (post Demo.valid_submission)) = Some EvGetQueryset.
Proof.
  split; [reflexivity|].
  split.
  - apply (document_view_fetches_first Demo.page_request eq_refl).
  - apply (document_view_fetches_first Demo.valid_submission eq_refl).
Defined.

Lemma consecutive_gets_agree_witness :
  store (final (get Demo.page_request)) = Demo.shelf ∧
  get (Demo.start (Demo.books_view Demo.get_request)
         (store (final (get Demo.page_request)))) =
  get Demo.page_request.
Proof.
  destruct (consecutive_gets_agree Demo.page_request
              (Demo.start (Demo.books_view Demo.get_request)
                 (store (final (get Demo.page_request))))
              eq_refl eq_refl) as (H1 & _ & _ & H2 & _).
  split; [exact H1 | exact H2].
Defined.

Lemma falsy_object_list_injects_nothing_witness :
  truthy (VList []) = false ∧
  DocumentFormSetMixin_context (C := Demo.collaborators)
    (self Demo.page_request) (VList [])
    {["formset" := VObj 7]} = {["formset" := VObj 7]}.
Proof.
  split; [reflexivity|].
  apply (falsy_object_list_injects_nothing
           (fetch_object_list (VList []) Demo.page_request)
           {["formset" := VObj 7]} (VList []) eq_refl eq_refl).
Defined.

(** ** Further behaviour of the handlers *)

Section Behaviour.
Context `{C : Collaborators}.

(** *** Case analysis of the request-processing layer *)

Lemma formset_invalid_raises formset s e :
  built_context (self s) {["formset" := formset]} = Raise e →
  formset_invalid formset s = {| returned := Raise e; final := s; calls := [] |}.
Proof.
  intros H. unfold formset_invalid, FormSetMixin_formset_invalid, bind.
  rewrite get_context_data_returned, H.
  by destruct (get_context_data_quiet {["formset" := formset]} s) as [-> ->].
Qed.

Lemma ProcessFormSetView_get_gets s : gets s (ProcessFormSetView_get s).
Proof.
  unfold ProcessFormSetView_get.
  destruct (returned (construct_formset s)) as [formset|e] eqn:Hc.
  - rewrite (bind_Ok _ _ s formset Hc), construct_formset_final.
    change (gets s (preceded_by (calls (construct_formset s))
                      (formset_invalid formset s))).
    destruct (built_context (self s) {["formset" := formset]})
      as [context|e] eqn:Hb.
    + rewrite (formset_invalid_renders formset s context Hb).
      by apply (gets_renders s formset context).
    + rewrite (formset_invalid_raises formset s e Hb).
      unfold preceded_by; simpl. rewrite app_nil_r.
      by apply (gets_context_raises s formset e).
  - unfold bind. rewrite Hc, construct_formset_final.
    by apply gets_construction_raises.
Qed.

Lemma ProcessFormSetView_post_posts s : posts s (ProcessFormSetView_post s).
Proof.
  destruct (returned (construct_formset s)) as [formset|e] eqn:Hc.
  - destruct (is_valid formset (store s)) as [[|]|e] eqn:Hv.
    + rewrite (ProcessFormSetView_post_routes s formset true Hc Hv).
      unfold formset_valid. rewrite bind_get_self.
      destruct (is_document_view (klass (self s))) eqn:Hd.
      * unfold DocumentFormSetMixin_formset_valid, bind at 1, call_save.
        destruct (save formset (store s)) as [[saved|e] st'] eqn:Hs;
          unfold preceded_by; simpl; rewrite <- app_assoc; simpl.
        -- by apply (posts_saves s formset saved st').
        -- by apply (posts_save_raises s formset e st').
      * unfold FormSetMixin_formset_valid. rewrite bind_get_self.
        unfold preceded_by; simpl. rewrite app_nil_r.
        by apply (posts_redirects s formset).
    + rewrite (ProcessFormSetView_post_routes s formset false Hc Hv).
      destruct (built_context (self s) {["formset" := formset]})
        as [context|e] eqn:Hb.
      * rewrite (formset_invalid_renders formset s context Hb).
        unfold preceded_by; simpl. rewrite <- app_assoc; simpl.
        by apply (posts_renders s formset context).
      * rewrite (formset_invalid_raises formset s e Hb).
        unfold preceded_by; simpl. rewrite app_nil_r.
        by apply (posts_context_raises s formset e).
    + unfold ProcessFormSetView_post.
      rewrite (bind_Ok _ _ s formset Hc), construct_formset_final.
      unfold bind, call_is_valid, ask, preceded_by; simpl. rewrite Hv.
      by apply (posts_validation_raises s formset e).
  - unfold ProcessFormSetView_post, bind.
    rewrite Hc, construct_formset_final.
    by apply posts_construction_raises.
Qed.

Lemma post_cases s :
  (is_document_view (klass (self s)) = true ∧
   ∃ e, get_queryset (self s) (store s) = Raise e ∧
        post s =
        {| returned := Raise e; final := s; calls := [EvGetQueryset] |}) ∨
  (∃ s0, processing_state s = Some s0 ∧
         post s =
         preceded_by (fetch_calls (self s)) (ProcessFormSetView_post s0)).
Proof.
  destruct (processing_state s) as [s0|] eqn:Hp.
  - right. exists s0. split; [done|]. by apply post_processing.
  - left. unfold processing_state in Hp. unfold post. rewrite bind_get_self.
    destruct (is_document_view (klass (self s))); [|done].
    unfold BaseDocumentFormSetView_post. rewrite fetch_then.
    destruct (get_queryset (self s) (store s)) as [q|e]; [done|]. eauto.
Qed.

Lemma get_cases s :
  (is_document_view (klass (self s)) = true ∧
   ∃ e, get_queryset (self s) (store s) = Raise e ∧
        get s =
        {| returned := Raise e; final := s; calls := [EvGetQueryset] |}) ∨
  (∃ s0, processing_state s = Some s0 ∧
         get s =
         preceded_by (fetch_calls (self s)) (ProcessFormSetView_get s0)).
Proof.
  destruct (processing_state s) as [s0|] eqn:Hp.
  - right. exists s0. split; [done|]. by apply get_processing.
  - left. unfold processing_state in Hp. unfold get. rewrite bind_get_self.
    destruct (is_document_view (klass (self s))); [|done].
    unfold BaseDocumentFormSetView_get. rewrite fetch_then.
    destruct (get_queryset (self s) (store s)) as [q|e]; [done|]. eauto.
Qed.

Lemma plain_processing s :
  is_document_view (klass (self s)) = false →
  processing_state s = Some s ∧
  post s = ProcessFormSetView_post s ∧ get s = ProcessFormSetView_get s.
Proof.
  intros Hd.
  assert (Hp : processing_state s = Some s)
    by (unfold processing_state; by rewrite Hd).
  split; [done|].
  rewrite (post_processing s s Hp), (get_processing s s Hp).
  unfold fetch_calls. rewrite Hd. by rewrite !preceded_by_nil.
Qed.

Lemma rendered_contexts_app (a b : list event) :
  rendered_contexts (a ++ b) = rendered_contexts a ++ rendered_contexts b.
Proof.
  induction a as [|e a IH]; [done|].
  destruct e; simpl; by rewrite ?IH.
Qed.

Lemma validated_formsets_app (a b : list event) :
  validated_formsets (a ++ b) = validated_formsets a ++ validated_formsets b.
Proof.
  induction a as [|e a IH]; [done|].
  destruct e; simpl; by rewrite ?IH.
Qed.

Lemma construct_formset_only_constructs s :
  saved_formsets (calls (construct_formset s)) = [] ∧
  rendered_contexts (calls (construct_formset s)) = [] ∧
  validated_formsets (calls (construct_formset s)) = [].
Proof. by destruct (construct_formset_constructs s). Qed.

Lemma fetch_calls_only_query v :
  saved_formsets (fetch_calls v) = [] ∧
  rendered_contexts (fetch_calls v) = [] ∧
  validated_formsets (fetch_calls v) = [].
Proof. unfold fetch_calls. by destruct (is_document_view (klass v)). Qed.

(** Decides whether a call is among calls listed explicitly. *)
Ltac among_calls :=
  rewrite ?elem_of_app, ?elem_of_cons, ?elem_of_nil in *;
  intuition congruence.

Lemma plain_construct_formset_never_queries s :
  is_document_view (klass (self s)) = false →
  EvGetQueryset ∉ calls (construct_formset s).
Proof.
  intros Hd.
  destruct (construct_formset_constructs s); simpl; try congruence;
    among_calls.
Qed.

(** Simplifies the projections of a list of calls built by the
    handlers. *)
Ltac project_calls :=
  rewrite ?saved_formsets_app, ?rendered_contexts_app,
    ?validated_formsets_app;
  rewrite ?(proj1 (construct_formset_only_constructs _)),
    ?(proj1 (proj2 (construct_formset_only_constructs _))),
    ?(proj2 (proj2 (construct_formset_only_constructs _))),
    ?(proj1 (fetch_calls_only_query _)),
    ?(proj1 (proj2 (fetch_calls_only_query _))),
    ?(proj2 (proj2 (fetch_calls_only_query _)));
  simpl.

(** *** Plain formset views *)

(** X1. The handlers of a plain formset view (one without the document
    mixin) leave the view and the store exactly as they found them:
    they never query the documents and never save a formset, whatever
    the collaborators answer. *)
Theorem plain_view_never_queries_or_saves s :
  is_document_view (klass (self s)) = false →
  final (get s) = s ∧ final (post s) = s ∧ final (put s) = s ∧
  saved_formsets (calls (post s)) = [] ∧
  (EvGetQueryset ∉ calls (get s)) ∧ (EvGetQueryset ∉ calls (post s)).
Proof.
  intros Hd. destruct (plain_processing s Hd) as (_ & Hpost & Hget).
  change (put s) with (post s). rewrite Hpost, Hget.
  pose proof (plain_construct_formset_never_queries s Hd) as Hq.
  split; [by destruct (ProcessFormSetView_get_gets s)|].
  assert (final (ProcessFormSetView_post s) = s ∧
          saved_formsets (calls (ProcessFormSetView_post s)) = [] ∧
          EvGetQueryset ∉ calls (ProcessFormSetView_post s))
    as (? & ? & ?).
  { destruct (ProcessFormSetView_post_posts s); simpl; try congruence;
      project_calls; (split; [done|]); (split; [done|]); among_calls. }
  repeat split; try done.
  destruct (ProcessFormSetView_get_gets s); simpl; among_calls.
Qed.

(** X2. In a plain formset view a valid submission is answered right
    after validation, with the redirect to the success URL when
    [HttpResponseRedirect] accepts that URL and with the exception of
    its check otherwise; nothing is saved, nothing is rendered and the
    state is left as it was. *)
Theorem plain_valid_submission_only_redirects s formset :
  is_document_view (klass (self s)) = false →
  returned (construct_formset s) = Ok formset →
  is_valid formset (store s) = Ok true →
  post s =
  {| returned := new_HttpResponseRedirect (get_success_url (self s));
     final := s;
     calls := calls (construct_formset s) ++ [EvIsValid formset] |} ∧
  (disallowed_redirect (get_success_url (self s)) = None →
   returned (post s) = Ok (HttpResponseRedirect (get_success_url (self s)))) ∧
  (∀ e, disallowed_redirect (get_success_url (self s)) = Some e →
        returned (post s) = Raise e).
Proof.
  intros Hd Hc Hv. destruct (plain_processing s Hd) as (_ & -> & _).
  rewrite (ProcessFormSetView_post_routes s formset true Hc Hv).
  unfold formset_valid. rewrite bind_get_self, Hd.
  unfold FormSetMixin_formset_valid. rewrite bind_get_self.
  unfold preceded_by, of_outcome; simpl. rewrite app_nil_r.
  split; [done|]. unfold new_HttpResponseRedirect.
  split; [by intros ->|]. by intros e ->.
Qed.

(** *** What a request can do, and in which order *)

(** X3. A POST validates at most one formset and then either saves it
    or renders it, never both and never twice; a GET validates nothing,
    saves nothing and renders at most once.  This holds for every
    class and whatever the collaborators answer or raise. *)
Theorem request_saves_or_renders_at_most_once s :
  (length (saved_formsets (calls (post s))) +
   length (rendered_contexts (calls (post s))) ≤ 1)%nat ∧
  (length (validated_formsets (calls (post s))) ≤ 1)%nat ∧
  saved_formsets (calls (get s)) = [] ∧
  validated_formsets (calls (get s)) = [] ∧
  (length (rendered_contexts (calls (get s))) ≤ 1)%nat.
Proof.
  assert (Hpost :
    (length (saved_formsets (calls (post s))) +
     length (rendered_contexts (calls (post s))) ≤ 1)%nat ∧
    (length (validated_formsets (calls (post s))) ≤ 1)%nat).
  { destruct (post_cases s) as [(_ & e & _ & ->)|(s0 & _ & ->)];
      [simpl; lia|].
    destruct (ProcessFormSetView_post_posts s0); simpl;
      project_calls; lia. }
  split; [apply Hpost|]. split; [apply Hpost|].
  destruct (get_cases s) as [(_ & e & _ & ->)|(s0 & _ & ->)];
    [simpl; repeat split; lia|].
  destruct (ProcessFormSetView_get_gets s0); simpl;
    project_calls; repeat split; lia.
Qed.

(** X4. A POST changes the store only by saving: either the store is
    left as it was and no formset was saved, or the view is a document
    view, exactly one formset was saved, that formset had just been
    validated successfully, and the store is the one its [save()]
    left. *)
Theorem post_writes_only_by_saving_a_valid_formset s :
  (store (final (post s)) = store s ∧ saved_formsets (calls (post s)) = []) ∨
  (∃ s0 formset r,
     is_document_view (klass (self s)) = true ∧
     processing_state s = Some s0 ∧
     returned (construct_formset s0) = Ok formset ∧
     is_valid formset (store s) = Ok true ∧
     saved_formsets (calls (post s)) = [formset] ∧
     save formset (store s) = (r, store (final (post s)))).
Proof.
  destruct (post_cases s) as [(_ & e & _ & ->)|(s0 & Hp & ->)];
    [by left|].
  destruct (processing_state_facts s s0 Hp) as (Hst & Hk & _).
  destruct (ProcessFormSetView_post_posts s0)
    as [| | |formset saved st' Hc Hv Hd Hs|formset e st' Hc Hv Hd Hs| |];
    simpl; project_calls; try (by left).
  - right. exists s0, formset, (Ok saved).
    rewrite <- Hk, <- Hst. by rewrite Hs.
  - right. exists s0, formset, (Raise e).
    rewrite <- Hk, <- Hst. by rewrite Hs.
Qed.

(** X5. The redirect is only ever the answer to a submission that was
    validated successfully: when [post] returns the redirect, its
    target is the success URL, a formset was built and its [is_valid()]
    answered true, nothing was rendered, and in a document view that
    formset was saved. *)
Theorem redirect_only_after_successful_validation s url :
  returned (post s) = Ok (HttpResponseRedirect url) →
  url = get_success_url (self s) ∧
  ∃ s0 formset,
    processing_state s = Some s0 ∧
    returned (construct_formset s0) = Ok formset ∧
    is_valid formset (store s) = Ok true ∧
    rendered_contexts (calls (post s)) = [] ∧
    (is_document_view (klass (self s)) = true →
     saved_formsets (calls (post s)) = [formset]).
Proof.
  destruct (post_cases s) as [(_ & e & _ & ->)|(s0 & Hp & ->)]; [done|].
  destruct (processing_state_facts s s0 Hp) as (Hst & Hk & Hrq & Hurl & _).
  assert (Htarget : get_success_url (self s0) = get_success_url (self s))
    by (unfold get_success_url; by rewrite Hurl, Hrq).
  destruct (ProcessFormSetView_post_posts s0)
    as [| |formset Hc Hv Hd|formset saved st' Hc Hv Hd Hs| | |
        formset context Hc Hv Hb];
    simpl; try discriminate.
  - unfold new_HttpResponseRedirect.
    destruct (disallowed_redirect _); [discriminate|].
    intros [= <-]. split; [done|]. exists s0, formset.
    project_calls. rewrite <- Hst. repeat split; try done.
    rewrite <- Hk. congruence.
  - unfold new_HttpResponseRedirect.
    destruct (disallowed_redirect _); [discriminate|].
    intros [= <-]. split; [done|]. exists s0, formset.
    project_calls. rewrite <- Hst. by repeat split.
  - by destruct (render_to_response (self s0) context (store s0)).
Qed.

(** *** Exceptions *)

(** X6. When building the formset fails (the factory, the query for
    the formset or the formset class raises), [get] and [post] behave
    alike: the exception is returned, and nothing is validated, saved
    or rendered.  If it is the factory that raised, the formset class
    was not even called. *)
Theorem construction_failure_stops_the_handler s s0 e :
  processing_state s = Some s0 →
  returned (construct_formset s0) = Raise e →
  post s = get s ∧
  returned (post s) = Raise e ∧
  final (post s) = s0 ∧
  calls (post s) = fetch_calls (self s) ++ calls (construct_formset s0) ∧
  validated_formsets (calls (post s)) = [] ∧
  saved_formsets (calls (post s)) = [] ∧
  rendered_contexts (calls (post s)) = [] ∧
  (∀ e', documentformset_factory (document (self s)) (factory_args (self s))
           (get_factory_kwargs (self s)) = Raise e' →
         e = e' ∧
         calls (post s) =
         fetch_calls (self s) ++
         [EvFactory (document (self s)) (factory_args (self s))
            (get_factory_kwargs (self s))]).
Proof.
  intros Hp Hc.
  rewrite (post_processing s s0 Hp), (get_processing s s0 Hp).
  assert (Hpost : ProcessFormSetView_post s0 =
    {| returned := Raise e; final := s0;
       calls := calls (construct_formset s0) |}).
  { unfold ProcessFormSetView_post, bind.
    by rewrite Hc, construct_formset_final. }
  assert (Hget : ProcessFormSetView_get s0 =
    {| returned := Raise e; final := s0;
       calls := calls (construct_formset s0) |}).
  { unfold ProcessFormSetView_get, bind.
    by rewrite Hc, construct_formset_final. }
  rewrite Hpost, Hget. unfold preceded_by; simpl. project_calls.
  repeat split; try done.
  all: destruct (factory_call_of_settings _ _
                   (processing_state_settings s s0 Hp))
         as (Hd & Ha & Hfkw & _);
    rewrite <- Hd, <- Ha, <- Hfkw in *;
    destruct (construct_formset_constructs s0); simpl in *; congruence.
Qed.

(** X7. When [is_valid()] itself raises, the exception is returned and
    the submission is neither saved nor rendered; the store and the
    view stay as they were when processing started. *)
Theorem validation_exception_propagates s s0 formset e :
  processing_state s = Some s0 →
  returned (construct_formset s0) = Ok formset →
  is_valid formset (store s) = Raise e →
  returned (post s) = Raise e ∧
  final (post s) = s0 ∧
  calls (post s) =
    fetch_calls (self s) ++ calls (construct_formset s0) ++
    [EvIsValid formset] ∧
  saved_formsets (calls (post s)) = [] ∧
  rendered_contexts (calls (post s)) = [].
Proof.
  intros Hp Hc Hv. rewrite (post_processing s s0 Hp).
  destruct (processing_state_facts s s0 Hp) as (Hst & _).
  rewrite <- Hst in Hv.
  destruct (ProcessFormSetView_post_posts s0); simpl; project_calls;
    try congruence.
  assert (formset0 = formset) as -> by congruence.
  repeat split; congruence.
Qed.

(** X8. When a valid formset cannot be saved, the exception of
    [save()] is returned instead of the redirect, and [object_list] is
    not replaced: it still holds the documents fetched at the start of
    the request.  Nothing is rendered. *)
Theorem failed_save_keeps_object_list s s0 formset e st' :
  is_document_view (klass (self s)) = true →
  processing_state s = Some s0 →
  returned (construct_formset s0) = Ok formset →
  is_valid formset (store s) = Ok true →
  save formset (store s) = (Raise e, st') →
  returned (post s) = Raise e ∧
  (∃ q, get_queryset (self s) (store s) = Ok q ∧
        object_list (self (final (post s))) = Some q) ∧
  store (final (post s)) = st' ∧
  saved_formsets (calls (post s)) = [formset] ∧
  rendered_contexts (calls (post s)) = [].
Proof.
  intros Hd Hp Hc Hv Hs. rewrite (post_processing s s0 Hp).
  destruct (processing_state_facts s s0 Hp) as (Hst & Hk & _).
  rewrite <- Hst in Hv, Hs. rewrite <- Hk in Hd.
  assert (∃ q, get_queryset (self s) (store s) = Ok q ∧
               object_list (self s0) = Some q) as Hq.
  { unfold processing_state in Hp. rewrite <- Hk, Hd in Hp.
    destruct (get_queryset (self s) (store s)) as [q|]; [|done].
    injection Hp as <-. by exists q. }
  destruct (ProcessFormSetView_post_posts s0)
    as [| | |formset' saved st'' Hc' Hv' Hd' Hs'
        |formset' e' st'' Hc' Hv' Hd' Hs'| |];
    simpl; project_calls; try congruence.
  assert (formset' = formset) as -> by congruence.
  rewrite Hs in Hs'. injection Hs' as <- <-. by repeat split.
Qed.

(** *** The bundles *)

(** X9. The keys of the factory bundle are exactly the configuration
    names, even where the configured value is [None]; ["formset"] is
    added only for a truthy [formset_class] and ["form"], in the
    document variant, only for a truthy [form_class], each holding that
    class. *)
Theorem factory_kwargs_keys v :
  let base := BaseFormSetMixin_get_factory_kwargs v in
  let doc := DocumentFormSetMixin_get_factory_kwargs v in
  dom base =
    ({["extra"; "max_num"; "can_order"; "can_delete"]} : gset string) ∪
    (if truthy (formset_class v) then {["formset"]} else ∅) ∧
  dom doc =
    dom base ∪ {["exclude"; "fields"; "formfield_callback"]} ∪
    (if truthy (form_class v) then {["form"]} else ∅) ∧
  base !! "formset" =
    (if truthy (formset_class v) then Some (formset_class v) else None) ∧
  doc !! "formset" = base !! "formset" ∧
  doc !! "form" =
    (if truthy (form_class v) then Some (form_class v) else None) ∧
  base !! "form" = None.
Proof.
  cbv zeta.
  unfold DocumentFormSetMixin_get_factory_kwargs,
    BaseFormSetMixin_get_factory_kwargs, dict_update,
    get_formset_class, get_form_class.
  destruct (truthy (formset_class v)), (truthy (form_class v));
    (split; [rewrite ?dom_insert_L, ?dom_union_L, ?dom_insert_L,
               ?dom_empty_L; set_solver|]);
    (split; [rewrite ?dom_insert_L, ?dom_union_L, ?dom_insert_L,
               ?dom_empty_L; set_solver|]);
    by repeat split.
Qed.

Lemma formset_kwargs_without_queryset v k :
  k ≠ "data" → k ≠ "files" → BaseFormSetMixin_get_formset_kwargs v !! k = None.
Proof.
  intros Hd Hf. unfold BaseFormSetMixin_get_formset_kwargs.
  destruct (_ || _); [|done].
  rewrite dict_update_empty. by rewrite !lookup_insert_ne.
Qed.

(** X10. The document variants only add to the bundles of the base
    mixin: every entry of the base factory bundle is in the document
    factory bundle with the same value (setting ["formset"] a second
    time changes nothing), and the document instantiation bundle is the
    base bundle with the ["queryset"] entry holding the answer of the
    query. *)
Theorem document_bundles_extend_base s :
  BaseFormSetMixin_get_factory_kwargs (self s) ⊆
    DocumentFormSetMixin_get_factory_kwargs (self s) ∧
  (∀ kw, returned (DocumentFormSetMixin_get_formset_kwargs s) = Ok kw →
     BaseFormSetMixin_get_formset_kwargs (self s) ⊆ kw ∧
     ∃ q, get_queryset (self s) (store s) = Ok q ∧
          kw = <["queryset" := q]>
                 (BaseFormSetMixin_get_formset_kwargs (self s))).
Proof.
  split.
  - apply map_subseteq_spec. intros k x.
    unfold DocumentFormSetMixin_get_factory_kwargs,
      BaseFormSetMixin_get_factory_kwargs, dict_update,
      get_formset_class, get_form_class.
    destruct (truthy (formset_class (self s))),
      (truthy (form_class (self s)));
      rewrite ?lookup_insert, ?lookup_union, ?lookup_insert, ?lookup_empty;
      repeat case_decide; subst; simpl; try done;
      rewrite ?lookup_insert, ?lookup_empty;
      repeat case_decide; try done.
  - intros kw. unfold DocumentFormSetMixin_get_formset_kwargs.
    rewrite bind_get_self. unfold bind, call_get_queryset, ask; simpl.
    destruct (get_queryset (self s) (store s)) as [q|]; simpl; [|done].
    intros [= <-]. split; [|by exists q].
    apply insert_subseteq. by apply formset_kwargs_without_queryset.
Qed.

Lemma handler_factory_call s d args fkw :
  EvFactory d args fkw ∈ calls (get s) ∨
  EvFactory d args fkw ∈ calls (post s) →
  d = document (self s) ∧ args = factory_args (self s) ∧
  fkw = get_factory_kwargs (self s).
Proof.
  intros Hin.
  assert (∃ s0, processing_state s = Some s0 ∧
                EvFactory d args fkw ∈ calls (construct_formset s0))
    as (s0 & Hp & Hin0).
  { destruct Hin as [Hin|Hin];
      [by apply get_construction | by apply post_construction]. }
  destruct (factory_call_of_settings _ _ (processing_state_settings s s0 Hp))
    as (Hd & Ha & Hfkw & _).
  apply construct_formset_calls in Hin0
    as [[= -> -> ->]|[?|(? & ? & ?)]]; try discriminate.
  done.
Qed.

(** X11. The form class reaches the factory once: a plain view passes
    it as the second positional argument (even when it is [None]) and
    never as the keyword ["form"]; a document view passes no positional
    argument after the document, and the keyword ["form"] exactly when
    the form class is truthy. *)
Theorem form_class_reaches_factory_once s d args fkw :
  EvFactory d args fkw ∈ calls (get s) ∨
  EvFactory d args fkw ∈ calls (post s) →
  d = document (self s) ∧
  if is_document_view (klass (self s))
  then args = [] ∧
       fkw !! "form" =
         (if truthy (form_class (self s))
          then Some (form_class (self s)) else None)
  else args = [form_class (self s)] ∧ fkw !! "form" = None.
Proof.
  intros Hin. destruct (handler_factory_call s d args fkw Hin) as (-> & -> & ->).
  split; [done|].
  unfold factory_args, get_factory_kwargs, get_form_class.
  destruct (is_document_view (klass (self s))); (split; [done|]).
  - unfold DocumentFormSetMixin_get_factory_kwargs,
      BaseFormSetMixin_get_factory_kwargs, dict_update,
      get_formset_class, get_form_class.
    by destruct (truthy (formset_class (self s))),
      (truthy (form_class (self s))).
  - unfold BaseFormSetMixin_get_factory_kwargs, get_formset_class.
    by destruct (truthy (formset_class (self s))).
Qed.

Lemma construct_formset_instantiations s fcls ikw :
  EvInstantiate fcls ikw ∈ calls (construct_formset s) →
  (is_document_view (klass (self s)) = false ∧
   ikw = instantiation_kwargs (self s) None) ∨
  (is_document_view (klass (self s)) = true ∧
   ∃ q, get_queryset (self s) (store s) = Ok q ∧
        ikw = instantiation_kwargs (self s) (Some q)).
Proof.
  destruct (construct_formset_constructs s) as [?|? ?|fcls'|fcls' q];
    simpl; intros Hin;
    repeat (apply elem_of_cons in Hin as [Hin|Hin]; try discriminate);
    try (by apply elem_of_nil in Hin);
    injection Hin as -> ->; eauto.
Qed.

Lemma formset_kwargs_lookup_cases v :
  (submitted v ∧
   BaseFormSetMixin_get_formset_kwargs v !! "data" = Some (POST (request v)) ∧
   BaseFormSetMixin_get_formset_kwargs v !! "files" =
     Some (FILES (request v))) ∨
  (¬ submitted v ∧ BaseFormSetMixin_get_formset_kwargs v = ∅).
Proof.
  unfold submitted.
  destruct (decide (method (request v) = "POST")) as [?|Hn1];
    [left; split; [by left|]; apply formset_kwargs_lookup_submitted; by left|].
  destruct (decide (method (request v) = "PUT")) as [?|Hn2];
    [left; split; [by right|]; apply formset_kwargs_lookup_submitted;
     by right|].
  right. split; [tauto|]. by apply formset_kwargs_unsubmitted.
Qed.

(** X12. Every call a handler makes to the formset class has the
    keyword ["initial"] holding the configured initial values, the
    keyword ["queryset"] exactly in a document view, the keywords
    ["data"] and ["files"] exactly for a POST or PUT request, and no
    other keyword.  The bundle of [get_formset_kwargs] never holds
    ["initial"], so the explicit [initial=] cannot clash with it. *)
Theorem formset_class_keywords s fcls ikw :
  EvInstantiate fcls ikw ∈ calls (get s) ∨
  EvInstantiate fcls ikw ∈ calls (post s) →
  ikw !! "initial" = Some (initial (self s)) ∧
  (is_Some (ikw !! "queryset") ↔ is_document_view (klass (self s)) = true) ∧
  (is_Some (ikw !! "data") ↔ submitted (self s)) ∧
  (is_Some (ikw !! "files") ↔ submitted (self s)) ∧
  (∀ k, is_Some (ikw !! k) →
        k = "initial" ∨ k = "queryset" ∨ k = "data" ∨ k = "files") ∧
  (∀ s1 kw, returned (get_formset_kwargs s1) = Ok kw → kw !! "initial" = None).
Proof.
  intros Hin.
  assert (∃ s0, processing_state s = Some s0 ∧
                EvInstantiate fcls ikw ∈ calls (construct_formset s0))
    as (s0 & Hp & Hin0).
  { destruct Hin as [Hin|Hin];
      [by apply get_construction | by apply post_construction]. }
  destruct (factory_call_of_settings _ _ (processing_state_settings s s0 Hp))
    as (_ & _ & _ & Hikw).
  destruct (processing_state_facts s s0 Hp) as (_ & Hk & _).
  assert (Hother : ∀ q k, k ≠ "initial" → k ≠ "queryset" →
            instantiation_kwargs (self s) q !! k =
            BaseFormSetMixin_get_formset_kwargs (self s) !! k).
  { intros q k ? ?. unfold instantiation_kwargs.
    destruct q; by rewrite !lookup_insert_ne. }
  assert (Hbase : ∀ k, is_Some (BaseFormSetMixin_get_formset_kwargs (self s) !! k) →
            submitted (self s) ∧ (k = "data" ∨ k = "files")).
  { intros k [x Hx].
    destruct (formset_kwargs_lookup_cases (self s)) as [(Hs & _)|(_ & He)];
      [|by rewrite He in Hx].
    split; [done|].
    destruct (decide (k = "data")); [auto|].
    destruct (decide (k = "files")); [auto|].
    by rewrite formset_kwargs_without_queryset in Hx. }
  assert (Hsub : submitted (self s) →
            is_Some (BaseFormSetMixin_get_formset_kwargs (self s) !! "data") ∧
            is_Some (BaseFormSetMixin_get_formset_kwargs (self s) !! "files")).
  { intros Hs.
    destruct (formset_kwargs_lookup_submitted (self s) Hs) as [-> ->]. eauto. }
  split; [|split; [|split; [|split; [|split]]]].
  - apply construct_formset_instantiations in Hin0
      as [(_ & ->)|(_ & q & _ & ->)]; rewrite Hikw;
      apply instantiation_kwargs_lookup.
  - rewrite <- Hk.
    apply construct_formset_instantiations in Hin0
      as [(Hd & ->)|(Hd & q & _ & ->)]; rewrite Hikw, Hd;
      unfold instantiation_kwargs; rewrite lookup_insert_ne by done.
    + rewrite formset_kwargs_without_queryset by done.
      split; [by intros []|done].
    + rewrite lookup_insert_eq. split; eauto.
  - apply construct_formset_instantiations in Hin0
      as [(_ & ->)|(_ & q & _ & ->)]; rewrite Hikw, Hother by done;
      split; try apply Hbase; apply Hsub.
  - apply construct_formset_instantiations in Hin0
      as [(_ & ->)|(_ & q & _ & ->)]; rewrite Hikw, Hother by done;
      split; try apply Hbase; apply Hsub.
  - intros k Hsome.
    destruct (decide (k = "initial")); [auto|].
    destruct (decide (k = "queryset")); [auto|].
    apply construct_formset_instantiations in Hin0
      as [(_ & ->)|(_ & q & _ & ->)]; rewrite Hikw, Hother in Hsome by done;
      apply Hbase in Hsome as [_ [->| ->]]; auto.
  - intros s1 kw. rewrite get_formset_kwargs_run.
    destruct (is_document_view (klass (self s1))).
    + unfold bind, call_get_queryset, ask; simpl.
      destruct (get_queryset (self s1) (store s1)); simpl; [|done].
      intros [= <-]. rewrite lookup_insert_ne by done.
      by apply formset_kwargs_without_queryset.
    + intros [= <-]. by apply formset_kwargs_without_queryset.
Qed.

(** *** Rendering *)

Lemma construct_formset_never_renders s context :
  EvRender context ∉ calls (construct_formset s).
Proof.
  intros Hin. apply construct_formset_calls in Hin
    as [?|[?|(? & ? & ?)]]; discriminate.
Qed.

Lemma rendered_context_built s context :
  EvRender context ∈ calls (get s) ∨ EvRender context ∈ calls (post s) →
  ∃ s0 formset,
    processing_state s = Some s0 ∧
    returned (construct_formset s0) = Ok formset ∧
    built_context (self s0) {["formset" := formset]} = Ok context.
Proof.
  intros [Hin|Hin].
  - destruct (get_cases s) as [(_ & e & _ & Hg)|(s0 & Hp & Hg)];
      rewrite Hg in Hin; simpl in Hin; [among_calls|].
    exists s0.
    pose proof (construct_formset_never_renders s0 context).
    destruct (ProcessFormSetView_get_gets s0)
      as [| |formset context' Hc Hb]; simpl in Hin;
      unfold fetch_calls in Hin;
      destruct (is_document_view (klass (self s))); try among_calls.
    all: exists formset; split; [done|]; split; [done|];
      assert (context = context') as -> by among_calls; done.
  - destruct (post_cases s) as [(_ & e & _ & Hg)|(s0 & Hp & Hg)];
      rewrite Hg in Hin; simpl in Hin; [among_calls|].
    exists s0.
    pose proof (construct_formset_never_renders s0 context).
    destruct (ProcessFormSetView_post_posts s0)
      as [| | | | | |formset context' Hc Hv Hb]; simpl in Hin;
      unfold fetch_calls in Hin;
      destruct (is_document_view (klass (self s))); try among_calls.
    all: exists formset; split; [done|]; split; [done|];
      assert (context = context') as -> by among_calls; done.
Qed.

Lemma context_of_truthy_list v ol (kw : kwargs) :
  truthy ol = true →
  (kw !! "object_list" = None →
   DocumentFormSetMixin_context v ol kw !! "object_list" = Some ol) ∧
  (∀ name, get_context_object_name v ol = Some name → name ≠ "" →
           kw !! name = None →
           DocumentFormSetMixin_context v ol kw !! name = Some ol).
Proof.
  intros Ht. unfold DocumentFormSetMixin_context. rewrite Ht.
  destruct (get_context_object_name v ol) as [name|]; simpl.
  - destruct (String.eqb_spec name "") as [->|Hne]; simpl.
    + split; [|by intros ? [= <-]].
      intros Hk. by rewrite dict_update_lookup, Hk, lookup_insert_eq.
    + split.
      * intros Hk. rewrite dict_update_lookup, Hk.
        destruct (decide (name = "object_list")) as [->|];
          [by rewrite lookup_insert_eq|].
        by rewrite lookup_insert_ne, lookup_insert_eq.
      * intros ? [= <-] _ Hk.
        by rewrite dict_update_lookup, Hk, lookup_insert_eq.
  - split; [|done].
    intros Hk. by rewrite dict_update_lookup, Hk, lookup_insert_eq.
Qed.

(** X13. Whenever a document view renders, on a GET or on an invalid
    submission, the context holds the formset that was built under
    ["formset"] and, when the documents fetched at the start of the
    request are non-empty, holds them under ["object_list"] and under
    the context object name; when no document was fetched nothing but
    the formset is put in the context.  [ContextMixin.get_context_data]
    is only assumed to keep the entries it is given. *)
Theorem document_view_renders_with_object_list s context :
  is_document_view (klass (self s)) = true →
  (∀ v (kw : kwargs) k x,
     kw !! k = Some x → ContextMixin_get_context_data v kw !! k = Some x) →
  EvRender context ∈ calls (get s) ∨ EvRender context ∈ calls (post s) →
  ∃ q formset,
    get_queryset (self s) (store s) = Ok q ∧
    returned (construct_formset (fetch_object_list q s)) = Ok formset ∧
    context !! "formset" = Some formset ∧
    (truthy q = true →
     context !! "object_list" = Some q ∧
     ∀ name,
       get_context_object_name (self (fetch_object_list q s)) q = Some name →
       name ≠ "" → name ≠ "formset" → context !! name = Some q) ∧
    (truthy q = false →
     context =
     ContextMixin_get_context_data (self (fetch_object_list q s))
       {["formset" := formset]}).
Proof.
  intros Hd Hkeep Hin.
  destruct (rendered_context_built s context Hin) as (s0 & formset & Hp & Hc & Hb).
  unfold processing_state in Hp. rewrite Hd in Hp.
  destruct (get_queryset (self s) (store s)) as [q|]; [|done].
  injection Hp as <-. exists q, formset.
  split; [done|]. split; [done|].
  unfold built_context in Hb. simpl in Hb. rewrite Hd in Hb.
  injection Hb as <-.
  split; [|split].
  - apply Hkeep, context_keeps_caller_entries, lookup_singleton_eq.
  - intros Ht.
    destruct (context_of_truthy_list
                (self (fetch_object_list q s)) q {["formset" := formset]} Ht)
      as [Hol Hname].
    split; [by apply Hkeep, Hol|].
    intros name Hn Hne Hnf. apply Hkeep, (Hname name Hn Hne).
    by apply lookup_singleton_ne.
  - intros Ht. f_equal. unfold DocumentFormSetMixin_context.
    rewrite Ht. apply dict_update_empty.
Qed.

(** X14. A GET whose formset is built renders exactly once, after the
    formset is built, with a context that holds the formset under
    ["formset"]; what the handler returns is what the rendering
    returned or raised.  [ContextMixin.get_context_data] is only
    assumed to keep the ["formset"] entry. *)
Theorem get_renders_the_constructed_formset s s0 formset :
  processing_state s = Some s0 →
  returned (construct_formset s0) = Ok formset →
  (∀ v (kw : kwargs) x,
     kw !! "formset" = Some x →
     ContextMixin_get_context_data v kw !! "formset" = Some x) →
  ∃ context,
    context !! "formset" = Some formset ∧
    get s =
    {| returned := returned (call_render_to_response context s0);
       final := s0;
       calls := fetch_calls (self s) ++ calls (construct_formset s0) ++
                [EvRender context] |}.
Proof.
  intros Hp Hc Hkeep.
  destruct (processing_state_facts s s0 Hp) as (_ & Hk & _ & _ & Hol).
  rewrite <- Hk in Hol.
  destruct (built_context_keeps (self s0) {["formset" := formset]} Hol)
    as (passed & Hb & Hpassed).
  exists (ContextMixin_get_context_data (self s0) passed).
  split; [apply Hkeep, Hpassed, lookup_singleton_eq|].
  rewrite (get_processing s s0 Hp).
  destruct (ProcessFormSetView_get_gets s0) as [| |formset' context' Hc' Hb'];
    try congruence.
  assert (formset' = formset) as -> by congruence.
  rewrite Hb in Hb'. injection Hb' as <-. done.
Qed.

(** X15. Once the first query of a document view has answered, the
    handlers always leave [object_list] set.  [get] leaves the fetched
    documents.  [post] leaves what [save()] returned exactly when the
    formset was built, its [is_valid()] answered true and its [save()]
    returned normally; in every other case (the formset could not be
    built, validation failed or raised, [save()] raised) it leaves the
    fetched documents. *)
Theorem document_handlers_leave_object_list_set s q :
  is_document_view (klass (self s)) = true →
  get_queryset (self s) (store s) = Ok q →
  object_list (self (final (get s))) = Some q ∧
  object_list (self (final (post s))) =
    match returned (construct_formset (fetch_object_list q s)) with
    | Ok formset =>
        match is_valid formset (store s) with
        | Ok true =>
            match save formset (store s) with
            | (Ok saved, _) => Some saved
            | (Raise _, _) => Some q
            end
        | _ => Some q
        end
    | Raise _ => Some q
    end.
Proof.
  intros Hd Hq.
  assert (Hp : processing_state s = Some (fetch_object_list q s))
    by (unfold processing_state; by rewrite Hd, Hq).
  rewrite (get_processing _ _ Hp), (post_processing _ _ Hp).
  split; [by destruct (ProcessFormSetView_get_gets (fetch_object_list q s))|].
  change (store s) with (store (fetch_object_list q s)).
  destruct (ProcessFormSetView_post_posts (fetch_object_list q s))
    as [e Hc|formset e Hc Hv|formset Hc Hv Hd'
        |formset saved st' Hc Hv Hd' Hs|formset e st' Hc Hv Hd' Hs
        |formset e Hc Hv Hb|formset context Hc Hv Hb];
    cbn [preceded_by final]; rewrite Hc; try rewrite Hv; try rewrite Hs;
    try done.
  simpl in Hd'. congruence.
Qed.

(** *** The order of the calls *)

(** X16. The formset class is called last in the construction: a
    document view queries the documents for [object_list], calls the
    factory, queries the documents again for the formset and only then
    calls the formset class; a plain view calls the factory and then
    the formset class.  No other call comes before. *)
Theorem formset_class_is_called_after_factory_and_queries s fcls ikw :
  let d := document (self s) in
  let args := factory_args (self s) in
  let fkw := get_factory_kwargs (self s) in
  let prefix :=
    if is_document_view (klass (self s))
    then [EvGetQueryset; EvFactory d args fkw; EvGetQueryset;
          EvInstantiate fcls ikw]
    else [EvFactory d args fkw; EvInstantiate fcls ikw] in
  (EvInstantiate fcls ikw ∈ calls (get s) →
   ∃ rest, calls (get s) = prefix ++ rest) ∧
  (EvInstantiate fcls ikw ∈ calls (post s) →
   ∃ rest, calls (post s) = prefix ++ rest).
Proof.
  cbv zeta.
  assert (Hconstruct : ∀ s0,
    processing_state s = Some s0 →
    EvInstantiate fcls ikw ∈ calls (construct_formset s0) →
    ∀ tail, ∃ rest,
      fetch_calls (self s) ++ calls (construct_formset s0) ++ tail =
      (if is_document_view (klass (self s))
       then [EvGetQueryset;
             EvFactory (document (self s)) (factory_args (self s))
               (get_factory_kwargs (self s));
             EvGetQueryset; EvInstantiate fcls ikw]
       else [EvFactory (document (self s)) (factory_args (self s))
               (get_factory_kwargs (self s));
             EvInstantiate fcls ikw]) ++ rest).
  { intros s0 Hp Hin tail.
    destruct (factory_call_of_settings _ _ (processing_state_settings s s0 Hp))
      as (Hd & Ha & Hfkw & _).
    destruct (processing_state_facts s s0 Hp) as (_ & Hk & _).
    rewrite <- Hd, <- Ha, <- Hfkw, <- Hk. unfold fetch_calls. rewrite <- Hk.
    destruct (construct_formset_constructs s0)
      as [e|f e ? Hdoc ?|f ? Hdoc|f q ? Hdoc ?];
      simpl in Hin; try among_calls; rewrite Hdoc; simpl.
    - assert (EvInstantiate fcls ikw =
              EvInstantiate f (instantiation_kwargs (self s0) None))
        as [= -> ->] by among_calls.
      eauto.
    - assert (EvInstantiate fcls ikw =
              EvInstantiate f (instantiation_kwargs (self s0) (Some q)))
        as [= -> ->] by among_calls.
      eauto. }
  split; intros Hin.
  - destruct (get_construction s _ Hin eq_refl) as (s0 & Hp & Hin0).
    rewrite (get_processing s s0 Hp).
    destruct (ProcessFormSetView_get_gets s0); simpl.
    + destruct (Hconstruct s0 Hp Hin0 []) as [rest Hr].
      rewrite app_nil_r in Hr. eauto.
    + destruct (Hconstruct s0 Hp Hin0 []) as [rest Hr].
      rewrite app_nil_r in Hr. eauto.
    + apply (Hconstruct s0 Hp Hin0).
  - destruct (post_construction s _ Hin eq_refl) as (s0 & Hp & Hin0).
    rewrite (post_processing s s0 Hp).
    destruct (ProcessFormSetView_post_posts s0); simpl;
      try apply (Hconstruct s0 Hp Hin0).
    destruct (Hconstruct s0 Hp Hin0 []) as [rest Hr].
    rewrite app_nil_r in Hr. eauto.
Qed.

End Behaviour.

(** ** The further behaviour on the concrete collaborators *)

Lemma plain_view_never_queries_or_saves_witness :
  is_document_view (klass (self Demo.plain_valid_submission)) = false ∧
  final (post Demo.plain_valid_submission) = Demo.plain_valid_submission ∧
  saved_formsets (calls (post Demo.plain_valid_submission)) = [].
Proof.
  split; [reflexivity|].
  destruct (plain_view_never_queries_or_saves Demo.plain_valid_submission
              eq_refl) as (_ & H1 & _ & H2 & _).
  split; [exact H1 | exact H2].
Defined.

Lemma plain_valid_submission_only_redirects_witness :
  is_valid (Demo.plain_formset_of (VList [Demo.book "Dune"]))
    (store Demo.plain_valid_submission) = Ok true ∧
  returned (post Demo.plain_valid_submission) =
    Ok (HttpResponseRedirect (VStr "/books/")) ∧
  store (final (post Demo.plain_valid_submission)) = Demo.shelf.
Proof.
  split; [reflexivity|].
  destruct (plain_valid_submission_only_redirects Demo.plain_valid_submission
              (Demo.plain_formset_of (VList [Demo.book "Dune"]))
              eq_refl eq_refl eq_refl) as (Hpost & Hok & _).
  split; [exact (Hok eq_refl)|].
  rewrite Hpost. reflexivity.
Defined.

Lemma redirect_only_after_successful_validation_witness :
  returned (post Demo.valid_submission) =
    Ok (HttpResponseRedirect (VStr "/books/")) ∧
  rendered_contexts (calls (post Demo.valid_submission)) = [].
Proof.
  split; [reflexivity|].
  destruct (redirect_only_after_successful_validation Demo.valid_submission
              (VStr "/books/") eq_refl)
    as (_ & s0 & formset & _ & _ & _ & H & _).
  exact H.
Defined.

Lemma construction_failure_stops_the_handler_witness :
  returned (construct_formset
              (fetch_object_list (VList Demo.shelf) Demo.factoryless_request)) =
    Raise (Raised (VStr "not a document")) ∧
  returned (post Demo.factoryless_request) =
    Raise (Raised (VStr "not a document")) ∧
  validated_formsets (calls (post Demo.factoryless_request)) = [].
Proof.
  split; [reflexivity|].
  destruct (construction_failure_stops_the_handler Demo.factoryless_request
              _ _ eq_refl eq_refl) as (_ & H1 & _ & _ & H2 & _).
  split; [exact H1 | exact H2].
Defined.

Lemma validation_exception_propagates_witness :
  @is_valid Demo.unvalidatable
    (Demo.formset_of (VList [Demo.book "Dune"])) Demo.shelf =
    Raise (Raised (VStr "management form missing")) ∧
  returned (post Demo.unvalidatable_submission) =
    Raise (Raised (VStr "management form missing")) ∧
  saved_formsets (calls (post Demo.unvalidatable_submission)) = [].
Proof.
  split; [reflexivity|].
  destruct (validation_exception_propagates Demo.unvalidatable_submission
              _ _ _ eq_refl eq_refl eq_refl) as (H1 & _ & _ & H2 & _).
  split; [exact H1 | exact H2].
Defined.

Lemma failed_save_keeps_object_list_witness :
  @save Demo.unsaveable
    (Demo.formset_of (VList [Demo.book "Dune"])) Demo.shelf =
    (Raise (Raised (VStr "connection lost")), Demo.shelf) ∧
  returned (post Demo.unsaveable_submission) =
    Raise (Raised (VStr "connection lost")) ∧
  object_list (self (final (post Demo.unsaveable_submission))) =
    Some (VList Demo.shelf).
Proof.
  split; [reflexivity|].
  destruct (failed_save_keeps_object_list Demo.unsaveable_submission
              _ _ _ _ eq_refl eq_refl eq_refl eq_refl eq_refl)
    as (H1 & (q & Hq & H2) & _).
  split; [exact H1|].
  injection Hq as <-. exact H2.
Defined.

Lemma form_class_reaches_factory_once_witness :
  is_document_view (klass (self Demo.page_request)) = true ∧
  get_factory_kwargs (self Demo.page_request) !! "form" = None.
Proof.
  split; [reflexivity|].
  assert (Hin :
    EvFactory (VStr "book") [] (get_factory_kwargs (self Demo.page_request))
      ∈ calls (get Demo.page_request)).
  { apply list_elem_of_further, list_elem_of_here. }
  destruct (form_class_reaches_factory_once Demo.page_request _ _ _
              (or_introl Hin)) as [_ H].
  exact (proj2 H).
Defined.

Lemma formset_class_keywords_witness :
  instantiation_kwargs (self Demo.valid_submission)
    (Some (VList Demo.shelf)) !! "initial" = Some (VList []) ∧
  is_Some (instantiation_kwargs (self Demo.valid_submission)
             (Some (VList Demo.shelf)) !! "data").
Proof.
  assert (Hin :
    EvInstantiate (VList [VStr "FormSet"; VStr "book"])
      (instantiation_kwargs (self Demo.valid_submission)
         (Some (VList Demo.shelf)))
      ∈ calls (post Demo.valid_submission)).
  { do 3 apply list_elem_of_further. apply list_elem_of_here. }
  destruct (formset_class_keywords Demo.valid_submission _ _
              (or_intror Hin)) as (H1 & _ & H2 & _).
  split; [exact H1|]. apply H2. by left.
Defined.

Lemma document_view_renders_with_object_list_witness :
  EvRender Demo.page_context ∈ calls (get Demo.page_request) ∧
  Demo.page_context !! "object_list" = Some (VList Demo.shelf) ∧
  Demo.page_context !! "book_list" = Some (VList Demo.shelf).
Proof.
  assert (Hin : EvRender Demo.page_context ∈ calls (get Demo.page_request)).
  { do 4 apply list_elem_of_further. apply list_elem_of_here. }
  split; [exact Hin|].
  destruct (document_view_renders_with_object_list Demo.page_request
              Demo.page_context eq_refl (fun _ _ _ _ H => H) (or_introl Hin))
    as (q & formset & Hq & _ & _ & Ht & _).
  injection Hq as <-.
  destruct (Ht eq_refl) as [H1 H2].
  split; [exact H1|].
  apply (H2 "book_list"); [reflexivity | discriminate | discriminate].
Defined.

Lemma get_renders_the_constructed_formset_witness :
  ∃ context,
    context !! "formset" = Some (Demo.formset_of VNone) ∧
    EvRender context ∈ calls (get Demo.page_request).
Proof.
  destruct (get_renders_the_constructed_formset Demo.page_request _ _
              eq_refl eq_refl (fun _ _ _ H => H)) as (context & H1 & H2).
  exists context. split; [exact H1|].
  rewrite H2. simpl.
  do 4 apply list_elem_of_further. apply list_elem_of_here.
Defined.

Lemma document_handlers_leave_object_list_set_witness :
  get_queryset (self Demo.valid_submission) (store Demo.valid_submission) =
    Ok (VList Demo.shelf) ∧
  object_list (self (final (get Demo.valid_submission))) =
    Some (VList Demo.shelf) ∧
  object_list (self (final (post Demo.valid_submission))) =
    Some (VList [Demo.book "Dune"]).
Proof.
  split; [reflexivity|].
  apply (document_handlers_leave_object_list_set Demo.valid_submission
           (VList Demo.shelf) eq_refl eq_refl).
Defined.
